(** * Course marketplace backend: the course controller

    A shallow embedding of [server/src/controllers/courseController.ts]:
    the purchase workflow [createTransaction], the payment-intent issuer
    [createStripePaymentIntent], [listTransactions] and [updateCourse].

    The handlers are asynchronous Express handlers that talk to external
    stores.  They are embedded as functions of a [World] (the contents of
    the stores, the gateway and the object store) in a small state and
    exception monad: a thrown error leaves the world as it is at the point
    of the throw, exactly as a rejected [await] does. *)

From stdpp Require Import gmap strings list fin_maps.
From Stdlib Require Import ZArith.

Local Open Scope string_scope.
Local Open Scope Z_scope.

(** ** Data model *)

(** JSON scalars found in a request body or in a stored attribute. *)
Inductive JValue :=
| JNull
| JBool (b : bool)
| JNum (n : Z)
| JStr (s : string).

Record Chapter := { chapterId : string }.

(** [section.chapters] is read from a stored document typed [any]: it is
    a list, or [undefined] when the attribute was never written. *)
Record CourseSection := {
  sectionId : string;
  chapters : option (list Chapter);
}.

(** A course document.  [attrs] holds its scalar attributes (title,
    teacherName, price, imageUrl, ...); the identifier is the key under
    which the document is stored. *)
Record Course := {
  attrs : gmap string JValue;
  sections : option (list CourseSection);
  enrollments : gset string;
}.

Record Transaction := {
  dateTime : string;
  tx_userId : string;
  tx_courseId : string;
  transactionId : string;
  amount : Z;
  paymentProvider : string;
}.

Record ChapterProgress := {
  cp_chapterId : string;
  completed : bool;
}.

Record SectionProgress := {
  sp_sectionId : string;
  sp_chapters : list ChapterProgress;
}.

Record UserCourseProgress := {
  ucp_userId : string;
  ucp_courseId : string;
  enrollmentDate : string;
  overallProgress : Z;
  ucp_sections : list SectionProgress;
  lastAccessedTimestamp : string;
}.

(** The payload of [Course.update({ id }, updates)]: [req.body]. *)
Record Updates := {
  u_attrs : gmap string JValue;
  u_sections : option (list CourseSection);
}.

(** The input of an object-store upload. *)
Record PutObjectCommand := {
  Bucket : option string;
  Key : string;
  Body : string;
  ContentType : string;
}.

Record PaymentIntent := {
  pi_amount : Z;
  currency : string;
  automatic_payment_methods_enabled : bool;
  allow_redirects : string;
  client_secret : string;
}.

(** ** External calls, errors and the world *)

(** The awaited calls of the controller. *)
Inductive Op :=
| OpCourseGet
| OpTransactionSave
| OpProgressSave
| OpCourseAdd
| OpCourseUpdate
| OpTransactionQuery
| OpTransactionScan
| OpPutObject
| OpPaymentIntent.

Inductive Error :=
| DownstreamError (op : Op)
| TypeError (msg : string).

(** Every write that reached a store, in the order it was applied. *)
Inductive Effect :=
| WTransaction (t : Transaction)
| WProgress (p : UserCourseProgress)
| WEnroll (courseId userId : string)
| WCoursePatch (courseId : string) (u : Updates)
| WObject (command : PutObjectCommand)
| WIntent (amount : Z).

Record World := {
  courses : gmap string Course;
  transactions : gmap string Transaction;
  progress : gmap (string * string) UserCourseProgress;
  objects : gmap string PutObjectCommand;
  intents : list PaymentIntent;
  date_reads : nat;
  writes : list Effect;
}.

(** What the handlers do not control: which awaited call rejects, what
    the clock shows at each read, the secret the gateway issues for its
    n-th intent, and the process environment. *)
Record Env := {
  fails : Op → bool;
  clock : nat → string;
  secret_of : nat → string;
  AWS_S3_BUCKET : option string;
  AWS_REGION : string;
}.

Inductive Outcome (A : Type) :=
| Returned (a : A)
| Thrown (e : Error).
Arguments Returned {A} a.
Arguments Thrown {A} e.

Definition Async (A : Type) : Type := World → Outcome A * World.

#[global] Instance Async_ret : MRet Async :=
  λ A a w, (Returned a, w).

#[global] Instance Async_bind : MBind Async :=
  λ A B k m w,
    match m w with
    | (Returned a, w') => k a w'
    | (Thrown e, w') => (Thrown e, w')
    end.

Definition throw {A} (e : Error) : Async A := λ w, (Thrown e, w).

(** [try { body } catch (error) { handler }] around a whole handler. *)
Definition try_catch {A} (body : Async A) (handler : Error → World → A * World)
    (w : World) : A * World :=
  match body w with
  | (Returned a, w') => (a, w')
  | (Thrown e, w') => handler e w'
  end.

(** ** Responses *)

Inductive ResponseBody :=
| BError (message : string) (error : Error)
| BMessage (message : string)
| BCourse (course : Course)
| BTransactions (message : string) (data : list Transaction)
| BClientSecret (message : string) (clientSecret : string)
| BPurchase (message : string) (transaction : Transaction)
    (courseProgress : UserCourseProgress).

Record Response := {
  status : Z;
  body : ResponseBody;
}.

(** [res.status(code).json(b)] and [res.json(b)], which answers 200. *)
Definition res_status_json (code : Z) (b : ResponseBody) : Response :=
  {| status := code; body := b |}.
Definition res_json (b : ResponseBody) : Response := res_status_json 200 b.

(** ** World updates *)

Definition set_courses (f : gmap string Course → gmap string Course) (w : World) : World :=
  {| courses := f (courses w); transactions := transactions w;
     progress := progress w; objects := objects w; intents := intents w;
     date_reads := date_reads w; writes := writes w |}.

Definition set_transactions (f : gmap string Transaction → gmap string Transaction)
    (w : World) : World :=
  {| courses := courses w; transactions := f (transactions w);
     progress := progress w; objects := objects w; intents := intents w;
     date_reads := date_reads w; writes := writes w |}.

Definition set_progress
    (f : gmap (string * string) UserCourseProgress → gmap (string * string) UserCourseProgress)
    (w : World) : World :=
  {| courses := courses w; transactions := transactions w;
     progress := f (progress w); objects := objects w; intents := intents w;
     date_reads := date_reads w; writes := writes w |}.

Definition set_objects (f : gmap string PutObjectCommand → gmap string PutObjectCommand) (w : World) : World :=
  {| courses := courses w; transactions := transactions w;
     progress := progress w; objects := f (objects w); intents := intents w;
     date_reads := date_reads w; writes := writes w |}.

Definition set_intents (f : list PaymentIntent → list PaymentIntent) (w : World) : World :=
  {| courses := courses w; transactions := transactions w;
     progress := progress w; objects := objects w; intents := f (intents w);
     date_reads := date_reads w; writes := writes w |}.

Definition tick (w : World) : World :=
  {| courses := courses w; transactions := transactions w;
     progress := progress w; objects := objects w; intents := intents w;
     date_reads := S (date_reads w); writes := writes w |}.

Definition record (x : Effect) (w : World) : World :=
  {| courses := courses w; transactions := transactions w;
     progress := progress w; objects := objects w; intents := intents w;
     date_reads := date_reads w; writes := writes w ++ [x] |}.

(** ** The stores *)

Section Stores.
Context (env : Env).

(** An awaited call: it rejects when the environment says so, and
    otherwise performs [action].  A rejected call changes nothing. *)
Definition call {A} (op : Op) (action : Async A) : Async A :=
  if fails env op then throw (DownstreamError op) else action.

(** [new Date().toISOString()] *)
Definition Date_now : Async string :=
  λ w, (Returned (clock env (date_reads w)), tick w).

(** Modelled from the spec: the catalog store behind [courseModel]
    (absent from the sources), [get(id)] of the Catalog Store Adapter. *)
Definition Course_get (id : string) : Async (option Course) :=
  call OpCourseGet (λ w, (Returned (courses w !! id), w)).

(** Modelled from the spec: the transaction store behind
    [transactionModel] (absent from the sources); [save] is a
    uniquely-keyed write under the transaction identifier. *)
Definition Transaction_save (t : Transaction) : Async unit :=
  call OpTransactionSave
    (λ w, (Returned (),
           record (WTransaction t) (set_transactions <[transactionId t := t]> w))).

(** Modelled from the spec: the progress store behind
    [userCourseProgressModel] (absent from the sources); [save] is a
    uniquely-keyed write under the composite key (user, course). *)
Definition UserCourseProgress_save (p : UserCourseProgress) : Async unit :=
  call OpProgressSave
    (λ w, (Returned (),
           record (WProgress p)
             (set_progress <[(ucp_userId p, ucp_courseId p) := p]> w))).

(** The enrollment merge on the stored document, if there is one. *)
Definition add_enrollment (userId : string) (doc : option Course) : Course :=
  match doc with
  | Some c =>
      {| attrs := attrs c; sections := sections c;
         enrollments := {[userId]} ∪ enrollments c |}
  | None =>
      {| attrs := ∅; sections := None; enrollments := {[userId]} |}
  end.

(** Modelled from the spec: [update(key, {additive-append: field ->
    values})] of the Catalog Store Adapter (the [$ADD] update of
    [courseModel], absent from the sources): one atomic store operation
    that merges [{userId}] into the enrollment collection of the stored
    document as a set union.  The spec is silent on an absent key; the
    update then creates the document, as the store's update does. *)
Definition Course_update_ADD_enrollments (id userId : string) : Async unit :=
  call OpCourseAdd
    (λ w, (Returned (),
           record (WEnroll id userId)
             (set_courses <[id := add_enrollment userId (courses w !! id)]> w))).

(** A general patch on the stored document, if there is one. *)
Definition apply_updates (u : Updates) (doc : option Course) : Course :=
  match doc with
  | Some c =>
      {| attrs := u_attrs u ∪ attrs c;
         sections := match u_sections u with
                     | Some s => Some s
                     | None => sections c
                     end;
         enrollments := enrollments c |}
  | None =>
      {| attrs := u_attrs u; sections := u_sections u; enrollments := ∅ |}
  end.

(** Modelled from the spec: [update(key, patch)] of the Catalog Store
    Adapter ([courseModel] is absent from the sources); it answers the
    updated document. *)
Definition Course_update (id : string) (u : Updates) : Async Course :=
  call OpCourseUpdate
    (λ w,
       let course := apply_updates u (courses w !! id) in
       (Returned course,
        record (WCoursePatch id u) (set_courses <[id := course]> w))).

(** Modelled from the spec: [queryByUser(userId)] and [scanAll()] of
    the Transaction Store Adapter ([transactionModel] is absent from the
    sources). *)
Definition Transaction_query_userId_eq (userId : string) : Async (list Transaction) :=
  call OpTransactionQuery
    (λ w, (Returned (filter (λ t, tx_userId t = userId)
                       (map_to_list (transactions w)).*2), w)).

Definition Transaction_scan : Async (list Transaction) :=
  call OpTransactionScan
    (λ w, (Returned (map_to_list (transactions w)).*2, w)).

(** [s3Client.send(command)] for a [PutObjectCommand] *)
Definition s3Client_send (command : PutObjectCommand) : Async unit :=
  call OpPutObject
    (λ w, (Returned (),
           record (WObject command) (set_objects <[Key command := command]> w))).

(** [stripe.paymentIntents.create({ amount, currency: "usd",
    automatic_payment_methods: { enabled: true, allow_redirects: "never" } })];
    the gateway rejects a call that carries no amount. *)
Definition stripe_paymentIntents_create (amount : option Z) : Async PaymentIntent :=
  call OpPaymentIntent
    (λ w,
       match amount with
       | None => (Thrown (DownstreamError OpPaymentIntent), w)
       | Some amount =>
       let i := {| pi_amount := amount; currency := "usd";
                   automatic_payment_methods_enabled := true;
                   allow_redirects := "never";
                   client_secret := secret_of env (length (intents w)) |} in
       (Returned i, record (WIntent amount) (set_intents (λ l, (l ++ [i])%list) w))
       end).

(** ** The handlers *)

(** [xs.map(f)] on a value typed [any]: reading [map] of [undefined]
    throws a TypeError. *)
Definition Array_map {A B} (xs : option (list A)) (f : A → Async B) : Async (list B) :=
  match xs with
  | Some l => mapM f l
  | None => throw (TypeError "Cannot read properties of undefined (reading 'map')")
  end.

(** The body of a purchase request. *)
Record PurchaseRequest := {
  req_userId : string;
  req_courseId : string;
  req_transactionId : string;
  req_amount : Z;
  req_paymentProvider : string;
}.

Definition newTransaction_of (req : PurchaseRequest) (now : string) : Transaction :=
  {| dateTime := now;
     tx_userId := req_userId req;
     tx_courseId := req_courseId req;
     transactionId := req_transactionId req;
     amount := req_amount req;
     paymentProvider := req_paymentProvider req |}.

(** The argument of [new UserCourseProgress({ ... })], its properties
    evaluated in the order they are written. *)
Definition initialProgress_of (req : PurchaseRequest) (course : Course)
    : Async UserCourseProgress :=
  enrollmentDate ← Date_now;
  sections ← Array_map (sections course) (λ section,
    chapters ← Array_map (chapters section) (λ chapter,
      mret {| cp_chapterId := chapterId chapter; completed := false |});
    mret {| sp_sectionId := sectionId section; sp_chapters := chapters |});
  lastAccessedTimestamp ← Date_now;
  mret {| ucp_userId := req_userId req;
          ucp_courseId := req_courseId req;
          enrollmentDate := enrollmentDate;
          overallProgress := 0;
          ucp_sections := sections;
          lastAccessedTimestamp := lastAccessedTimestamp |}.

Definition createTransaction (req : PurchaseRequest) : World → Response * World :=
  try_catch
    (course ← Course_get (req_courseId req);
     match course with
     | None => mret (res_status_json 404 (BMessage "Course not found"))
     | Some course =>
         now ← Date_now;
         let newTransaction := newTransaction_of req now in
         Transaction_save newTransaction;;
         initialProgress ← initialProgress_of req course;
         UserCourseProgress_save initialProgress;;
         Course_update_ADD_enrollments (req_courseId req) (req_userId req);;
         mret (res_json
                 (BPurchase "Purchased Course successfully"
                    newTransaction initialProgress))
     end)
    (λ error w,
       (res_status_json 500
          (BError "Error creating transaction and enrollment" error), w)).

(** [!amount || amount <= 0] for an amount that is absent or a number. *)
Definition amount_rejected (amount : option Z) : bool :=
  match amount with
  | None => true
  | Some n => (n =? 0) || (n <=? 0)
  end.

Definition createStripePaymentIntent (amount : option Z) : World → Response * World :=
  let amount := if amount_rejected amount then Some 50 else amount in
  try_catch
    (paymentIntent ← stripe_paymentIntents_create amount;
     mret (res_json (BClientSecret "" (client_secret paymentIntent))))
    (λ error w,
       (res_status_json 500
          (BError "Error creating stripe payment intent" error), w)).

(** [userId ? query : scan]: an absent or empty string is falsy. *)
Definition truthy (s : option string) : bool :=
  match s with
  | None => false
  | Some s => negb (String.eqb s "")
  end.

Definition listTransactions (userId : option string) : World → Response * World :=
  try_catch
    (transactions ←
       (if truthy userId
        then Transaction_query_userId_eq (default "" userId)
        else Transaction_scan);
     mret (res_json (BTransactions "Transactions retrieved successfully" transactions)))
    (λ error w,
       (res_status_json 500 (BError "Error retrieving transactions" error), w)).

(** [req.file], as multer's memory storage leaves it. *)
Record File := {
  originalname : string;
  buffer : string;
  mimetype : string;
}.

Record UpdateRequest := {
  params_courseId : string;
  req_body : Updates;
  req_file : option File;
}.

(** An environment variable inside a template literal. *)
Definition template (v : option string) : string := default "undefined" v.

Definition object_key (courseId : string) (f : File) : string :=
  "courses/" +:+ courseId +:+ "/" +:+ originalname f.

Definition object_url (courseId : string) (f : File) : string :=
  "https://" +:+ template (AWS_S3_BUCKET env) +:+ ".s3." +:+ AWS_REGION env
    +:+ ".amazonaws.com/courses/" +:+ courseId +:+ "/" +:+ originalname f.

(** [updates.imageUrl = url] *)
Definition set_imageUrl (url : string) (u : Updates) : Updates :=
  {| u_attrs := <["imageUrl" := JStr url]> (u_attrs u);
     u_sections := u_sections u |}.

Definition updateCourse (req : UpdateRequest) : World → Response * World :=
  try_catch
    (let courseId := params_courseId req in
     let updates := req_body req in
     updates ←
       match req_file req with
       | Some file =>
           let command :=
             {| Bucket := AWS_S3_BUCKET env;
                Key := object_key courseId file;
                Body := buffer file;
                ContentType := mimetype file |} in
           s3Client_send command;;
           mret (set_imageUrl (object_url courseId file) updates)
       | None => mret updates
       end;
     course ← Course_update courseId updates;
     mret (res_status_json 200 (BCourse course)))
    (λ error w, (res_status_json 500 (BError "Error updating course" error), w)).

(** ** The purchase handler, one awaited call at a time

    Between two awaited calls a handler runs alone; at an awaited call
    other requests may be served.  [Thread] is the handler suspended at
    its next awaited call, with the local variables that are live there. *)
Inductive Thread :=
| Called (req : PurchaseRequest)
| Found (req : PurchaseRequest) (course : Course)
| Recorded (req : PurchaseRequest) (course : Course) (newTransaction : Transaction)
| Initialized (req : PurchaseRequest) (newTransaction : Transaction)
    (initialProgress : UserCourseProgress)
| Responded (res : Response).

Definition purchase_failed (error : Error) : Response :=
  res_status_json 500 (BError "Error creating transaction and enrollment" error).

Definition await {A} (m : Async A) (k : A → Thread) : World → Thread * World :=
  try_catch (x ← m; mret (k x)) (λ error w, (Responded (purchase_failed error), w)).

Definition step (t : Thread) : World → Thread * World :=
  match t with
  | Called req =>
      await (Course_get (req_courseId req))
        (λ course,
           match course with
           | None => Responded (res_status_json 404 (BMessage "Course not found"))
           | Some course => Found req course
           end)
  | Found req course =>
      await (now ← Date_now;
             let newTransaction := newTransaction_of req now in
             Transaction_save newTransaction;;
             mret newTransaction)
        (Recorded req course)
  | Recorded req course newTransaction =>
      await (initialProgress ← initialProgress_of req course;
             UserCourseProgress_save initialProgress;;
             mret initialProgress)
        (Initialized req newTransaction)
  | Initialized req newTransaction initialProgress =>
      await (Course_update_ADD_enrollments (req_courseId req) (req_userId req))
        (λ _, Responded (res_json
                           (BPurchase "Purchased Course successfully"
                              newTransaction initialProgress)))
  | Responded res => λ w, (Responded res, w)
  end.

Fixpoint run (n : nat) (t : Thread) (w : World) : Thread * World :=
  match n with
  | O => (t, w)
  | S n => let '(t', w') := step t w in run n t' w'
  end.

(** Two requests served together: the schedule says whose awaited call
    completes next ([true] for the first request). *)
Fixpoint interleave (schedule : list bool) (a b : Thread) (w : World)
    : Thread * Thread * World :=
  match schedule with
  | [] => (a, b, w)
  | true :: schedule => let '(a', w') := step a w in interleave schedule a' b w'
  | false :: schedule => let '(b', w') := step b w in interleave schedule a b' w'
  end.

End Stores.

(** ** What a successful purchase writes *)

Definition chapter_progress (chapter : Chapter) : ChapterProgress :=
  {| cp_chapterId := chapterId chapter; completed := false |}.

Definition section_progress (section : CourseSection) : option SectionProgress :=
  match chapters section with
  | Some l =>
      Some {| sp_sectionId := sectionId section;
              sp_chapters := chapter_progress <$> l |}
  | None => None
  end.

(** The progress sections derived from a course whose sections and
    chapters are all present. *)
Fixpoint sections_progress (l : list CourseSection) : option (list SectionProgress) :=
  match l with
  | [] => Some []
  | section :: l =>
      match section_progress section, sections_progress l with
      | Some sp, Some k => Some (sp :: k)
      | _, _ => None
      end
  end.

Definition mirrored (course : Course) : option (list SectionProgress) :=
  match sections course with
  | Some l => sections_progress l
  | None => None
  end.

Definition undefined_map : Error :=
  TypeError "Cannot read properties of undefined (reading 'map')".

(** A progress entry stands for a chapter, a progress section for a
    course section. *)
Definition mirrors_chapter (chapter : Chapter) (cp : ChapterProgress) : Prop :=
  cp_chapterId cp = chapterId chapter ∧ completed cp = false.

Definition mirrors_section (section : CourseSection) (sp : SectionProgress) : Prop :=
  sp_sectionId sp = sectionId section ∧
  ∃ l, chapters section = Some l ∧ Forall2 mirrors_chapter l (sp_chapters sp).

(** The stores after each awaited call of a purchase has gone through. *)
Section Purchase.
Context (env : Env) (req : PurchaseRequest) (w : World).

Definition the_transaction : Transaction :=
  newTransaction_of req (clock env (date_reads w)).

Definition after_transaction : World :=
  record (WTransaction the_transaction)
    (set_transactions <[req_transactionId req := the_transaction]> (tick w)).

Definition the_progress (l : list SectionProgress) : UserCourseProgress :=
  {| ucp_userId := req_userId req;
     ucp_courseId := req_courseId req;
     enrollmentDate := clock env (S (date_reads w));
     overallProgress := 0;
     ucp_sections := l;
     lastAccessedTimestamp := clock env (S (S (date_reads w))) |}.

Definition after_progress (l : list SectionProgress) : World :=
  record (WProgress (the_progress l))
    (set_progress <[(req_userId req, req_courseId req) := the_progress l]>
       (tick (tick after_transaction))).

Definition after_enrollment (l : list SectionProgress) : World :=
  record (WEnroll (req_courseId req) (req_userId req))
    (set_courses
       <[req_courseId req :=
           add_enrollment (req_userId req) (courses w !! req_courseId req)]>
       (after_progress l)).

Definition purchased (l : list SectionProgress) : Response :=
  res_json (BPurchase "Purchased Course successfully" the_transaction (the_progress l)).
End Purchase.

(** The upload command [updateCourse] builds for an image. *)
Definition upload_of env (courseId : string) (file : File) : PutObjectCommand :=
  {| Bucket := AWS_S3_BUCKET env;
     Key := object_key courseId file;
     Body := buffer file;
     ContentType := mimetype file |}.

(** ** Two purchases served together *)

(** How many awaited calls of the purchase handler have completed. *)
Definition stage (t : Thread) : nat :=
  match t with
  | Called _ => 0
  | Found _ _ => 1
  | Recorded _ _ _ => 2
  | Initialized _ _ _ => 3
  | Responded _ => 4
  end.

(** How many turns a schedule gives to a request. *)
Definition turns (who : bool) (schedule : list bool) : nat :=
  length (filter (λ b, b = who) schedule).

(** The answer of a purchase that went through. *)
Definition succeeded (req : PurchaseRequest) (t : Thread) : Prop :=
  ∃ tx p,
    t = Responded (res_json (BPurchase "Purchased Course successfully" tx p)) ∧
    tx_userId tx = req_userId req ∧ tx_courseId tx = req_courseId req ∧
    ucp_userId p = req_userId req ∧ ucp_courseId p = req_courseId req.

(** A handler on its way to success for [req], given that the course
    derives the progress sections [l]. *)
Definition on_track (req : PurchaseRequest) (l : list SectionProgress) (t : Thread) : Prop :=
  match t with
  | Called r => r = req
  | Found r c => r = req ∧ mirrored c = Some l
  | Recorded r c tx =>
      r = req ∧ mirrored c = Some l ∧
      tx_userId tx = req_userId req ∧ tx_courseId tx = req_courseId req
  | Initialized r tx p =>
      r = req ∧
      tx_userId tx = req_userId req ∧ tx_courseId tx = req_courseId req ∧
      ucp_userId p = req_userId req ∧ ucp_courseId p = req_courseId req
  | Responded _ => succeeded req t
  end.

(** The users a finished handler has enrolled. *)
Definition enrolled (req : PurchaseRequest) (t : Thread) : gset string :=
  match t with
  | Responded _ => {[req_userId req]}
  | _ => ∅
  end.

(** The invariant of two purchases of the course [course] (stored under
    [id]) being served together. *)
Definition together (id : string) (course : Course) (l : list SectionProgress)
    (ra rb : PurchaseRequest) (a b : Thread) (w : World) : Prop :=
  on_track ra l a ∧ on_track rb l b ∧
  ∃ c, courses w !! id = Some c ∧
       sections c = sections course ∧
       enrollments c = enrolled ra a ∪ enrolled rb b ∪ enrollments course.

(** ** Sample data *)

#[global] Instance Op_eq_dec : EqDecision Op.
Proof. solve_decision. Defined.

(** Every awaited call goes through. *)
Definition env_ok : Env :=
  {| fails := λ _, false;
     clock := λ _, "2025-07-01T10:00:00.000Z";
     secret_of := λ _, "pi_1_secret_1";
     AWS_S3_BUCKET := Some "lms-bucket";
     AWS_REGION := "us-east-1" |}.

(** Exactly the awaited calls in [ops] reject. *)
Definition env_failing (ops : list Op) : Env :=
  {| fails := λ op, bool_decide (op ∈ ops);
     clock := clock env_ok;
     secret_of := secret_of env_ok;
     AWS_S3_BUCKET := AWS_S3_BUCKET env_ok;
     AWS_REGION := AWS_REGION env_ok |}.

(** Course "c1": two sections, of one and of two chapters. *)
Definition course_c1 : Course :=
  {| attrs := {[ "title" := JStr "Rocq" ]};
     sections :=
       Some [ {| sectionId := "s1"; chapters := Some [ {| chapterId := "ch1" |} ] |};
              {| sectionId := "s2";
                 chapters := Some [ {| chapterId := "ch2" |}; {| chapterId := "ch3" |} ] |} ];
     enrollments := ∅ |}.

Definition world0 : World :=
  {| courses := {[ "c1" := course_c1 ]};
     transactions := ∅;
     progress := ∅;
     objects := ∅;
     intents := [];
     date_reads := 0;
     writes := [] |}.

Definition purchase_u1 : PurchaseRequest :=
  {| req_userId := "u1"; req_courseId := "c1"; req_transactionId := "tx1";
     req_amount := 4999; req_paymentProvider := "stripe" |}.

Definition purchase_u2 : PurchaseRequest :=
  {| req_userId := "u2"; req_courseId := "c1"; req_transactionId := "tx2";
     req_amount := 4999; req_paymentProvider := "stripe" |}.

(** A purchase of a course that is not in the catalog. *)
Definition purchase_unknown : PurchaseRequest :=
  {| req_userId := "u1"; req_courseId := "c9"; req_transactionId := "tx1";
     req_amount := 4999; req_paymentProvider := "stripe" |}.

Definition cover_png : File :=
  {| originalname := "cover.png"; buffer := "PNG-bytes"; mimetype := "image/png" |}.

Definition retitle : Updates :=
  {| u_attrs := {[ "title" := JStr "Rocq, second edition" ]}; u_sections := None |}.

Definition update_with_image : UpdateRequest :=
  {| params_courseId := "c1"; req_body := retitle; req_file := Some cover_png |}.

Definition update_without_image : UpdateRequest :=
  {| params_courseId := "c1"; req_body := retitle; req_file := None |}.

(** The world once "u1" has bought "c1". *)
Definition world1 : World := (createTransaction env_ok purchase_u1 world0).2.

(** ** The rest of the controller *)

Definition getCourse (env : Env) (courseId : string) : World → Response * World :=
  try_catch
    (course ← Course_get env courseId;
     match course with
     | None => mret (res_status_json 404 (BMessage "Course not found"))
     | Some course => mret (res_status_json 200 (BCourse course))
     end)
    (λ error w, (res_status_json 500 (BError "Error retrieving course" error), w)).

(** The remaining handlers also reach the gateway's product catalogue and
    the URL signer: the [Site] is the [World] together with those. *)
Record Product := {
  product_id : string;
  name : string;
  description : string;
}.

Record Price := {
  price_id : string;
  product : string;
  unit_amount : Z;
  price_currency : string;
}.

Record Site := {
  stores : World;
  products : list Product;
  prices : list Price;
}.

(** The input of a presigned upload: a [PutObjectCommand] without a body. *)
Record UploadTarget := {
  target_Bucket : option string;
  target_Key : string;
  target_ContentType : string;
}.

Inductive SiteOp :=
| OpCourseCreate
| OpCourseDelete
| OpCourseScan
| OpProductCreate
| OpPriceCreate
| OpGetSignedUrl.

Inductive SiteError :=
| Rejected (op : SiteOp).

(** What these handlers do not control: the [Env] of the other handlers,
    which of their awaited calls rejects, the identifiers the gateway
    issues, and the signature of an upload target for a lifetime. *)
Record SiteEnv := {
  base : Env;
  rejects : SiteOp → bool;
  product_id_of : nat → string;
  price_id_of : nat → string;
  signed : UploadTarget → Z → string;
}.

Inductive Settled (A : Type) :=
| Fulfilled (a : A)
| Failed (e : SiteError).
Arguments Fulfilled {A} a.
Arguments Failed {A} e.

Definition Task (A : Type) : Type := Site → Settled A * Site.

#[global] Instance Task_ret : MRet Task :=
  λ A a s, (Fulfilled a, s).

#[global] Instance Task_bind : MBind Task :=
  λ A B k m s,
    match m s with
    | (Fulfilled a, s') => k a s'
    | (Failed e, s') => (Failed e, s')
    end.

Definition site_try_catch {A} (body : Task A) (handler : SiteError → Site → A * Site)
    (s : Site) : A * Site :=
  match body s with
  | (Fulfilled a, s') => (a, s')
  | (Failed e, s') => handler e s'
  end.

Inductive SiteBody :=
| SError (message : string) (error : SiteError)
| SEmpty
| SCreated (id : string) (course : Course) (stripePrice : Price)
| SCourses (courses : list (string * Course))
| SUrl (url : string).

Record SiteResponse := {
  site_status : Z;
  site_body : SiteBody;
}.

Definition set_stores (f : World → World) (s : Site) : Site :=
  {| stores := f (stores s); products := products s; prices := prices s |}.

Section Catalog.
Context (senv : SiteEnv).

Definition site_call {A} (op : SiteOp) (action : Task A) : Task A :=
  if rejects senv op then (λ s, (Failed (Rejected op), s)) else action.

(** [new Date().toISOString()], on the clock of the other handlers. *)
Definition site_Date_now : Task string :=
  λ s, (Fulfilled (clock (base senv) (date_reads (stores s))), set_stores tick s).

(** Modelled from the spec: [create(record)] of the Catalog Store Adapter
    ([courseModel] is absent from the sources); it answers the created
    document.  The spec is silent on an identifier that is already taken;
    the call then rejects, as the store's create does. *)
Definition Course_create (id : string) (course : Course) : Task Course :=
  site_call OpCourseCreate
    (λ s,
       match courses (stores s) !! id with
       | Some _ => (Failed (Rejected OpCourseCreate), s)
       | None => (Fulfilled course, set_stores (set_courses <[id := course]>) s)
       end).

(** Modelled from the spec: [delete(id)] of the Catalog Store Adapter
    ([courseModel] is absent from the sources). *)
Definition Course_delete (id : string) : Task unit :=
  site_call OpCourseDelete
    (λ s, (Fulfilled (), set_stores (set_courses (delete id)) s)).

(** Modelled from the spec: [scan()] of the Catalog Store Adapter
    ([courseModel] is absent from the sources). *)
Definition Course_scan : Task (list (string * Course)) :=
  site_call OpCourseScan
    (λ s, (Fulfilled (map_to_list (courses (stores s))), s)).

(** [stripe.products.create({ name, description })] *)
Definition stripe_products_create (name description : string) : Task Product :=
  site_call OpProductCreate
    (λ s,
       let p := {| product_id := product_id_of senv (length (products s));
                   name := name; description := description |} in
       (Fulfilled p,
        {| stores := stores s; products := products s ++ [p]; prices := prices s |})).

(** [stripe.prices.create({ product, unit_amount, currency })] *)
Definition stripe_prices_create (product : string) (unit_amount : Z) (currency : string)
    : Task Price :=
  site_call OpPriceCreate
    (λ s,
       let p := {| price_id := price_id_of senv (length (prices s));
                   product := product; unit_amount := unit_amount;
                   price_currency := currency |} in
       (Fulfilled p,
        {| stores := stores s; products := products s; prices := prices s ++ [p] |})).

(** [getSignedUrl(s3Client, command, { expiresIn })]: nothing is sent. *)
Definition getSignedUrl (command : UploadTarget) (expiresIn : Z) : Task string :=
  site_call OpGetSignedUrl (λ s, (Fulfilled (signed senv command expiresIn), s)).

(** The body of a course creation: title, teacherName and price are
    present, [id] and [sections] may be missing. *)
Record CourseBody := {
  body_id : option string;
  body_title : string;
  body_teacherName : string;
  body_price : Z;
  body_sections : option (list CourseSection);
}.

(** The document [createCourse] hands to [Course.create]. *)
Definition course_of (body : CourseBody) : Course :=
  {| attrs := {[ "title" := JStr (body_title body);
                 "teacherName" := JStr (body_teacherName body);
                 "price" := JNum (body_price body) ]};
     sections := body_sections body;
     enrollments := ∅ |}.

Definition createCourse (body : CourseBody) : Site → SiteResponse * Site :=
  site_try_catch
    (id ← (if truthy (body_id body)
           then mret (default "" (body_id body))
           else site_Date_now);
     course ← Course_create id (course_of body);
     product ← stripe_products_create (body_title body) ("Course: " +:+ body_title body);
     stripePrice ← stripe_prices_create (product_id product) (body_price body * 100) "usd";
     mret {| site_status := 201; site_body := SCreated id course stripePrice |})
    (λ error s,
       ({| site_status := 500; site_body := SError "Error creating course" error |}, s)).

Definition deleteCourse (courseId : string) : Site → SiteResponse * Site :=
  site_try_catch
    (Course_delete courseId;;
     mret {| site_status := 204; site_body := SEmpty |})
    (λ error s,
       ({| site_status := 500; site_body := SError "Error deleting course" error |}, s)).

Definition listCourses : Site → SiteResponse * Site :=
  site_try_catch
    (courses ← Course_scan;
     mret {| site_status := 200; site_body := SCourses courses |})
    (λ error s,
       ({| site_status := 500; site_body := SError "Error listing courses" error |}, s)).

Definition video_key (courseId sectionId chapterId : string) : string :=
  "courses/" +:+ courseId +:+ "/sections/" +:+ sectionId
    +:+ "/chapters/" +:+ chapterId +:+ "/video.mp4".

Definition getUploadVideoUrl (courseId sectionId chapterId : string)
    : Site → SiteResponse * Site :=
  site_try_catch
    (let key := video_key courseId sectionId chapterId in
     let command :=
       {| target_Bucket := AWS_S3_BUCKET (base senv);
          target_Key := key;
          target_ContentType := "video/mp4" |} in
     uploadUrl ← getSignedUrl command 3600;
     mret {| site_status := 200; site_body := SUrl uploadUrl |})
    (λ error s,
       ({| site_status := 500; site_body := SError "Error generating upload URL" error |},
        s)).

End Catalog.

(** An identifier without the character [/] (code 47), as a path segment
    is before decoding. *)
Fixpoint slash_free (s : string) : bool :=
  match s with
  | EmptyString => true
  | String a s => negb (Ascii.eqb a (Ascii.ascii_of_nat 47)) && slash_free s
  end.

(** The file name under which an image lands on a chapter's video. *)
Definition video_name (sectionId chapterId : string) : string :=
  "sections/" +:+ sectionId +:+ "/chapters/" +:+ chapterId +:+ "/video.mp4".

(** The 500 answer of [createCourse]. *)
Definition creation_failed (op : SiteOp) : SiteResponse :=
  {| site_status := 500; site_body := SError "Error creating course" (Rejected op) |}.

(** *** Sample data for the rest of the controller *)

Definition senv_ok : SiteEnv :=
  {| base := env_ok;
     rejects := λ _, false;
     product_id_of := λ _, "prod_1";
     price_id_of := λ _, "price_1";
     signed := λ command expiresIn, "https://signed.example/" +:+ target_Key command |}.

#[global] Instance SiteOp_eq_dec : EqDecision SiteOp.
Proof. solve_decision. Defined.

Definition senv_rejecting (ops : list SiteOp) : SiteEnv :=
  {| base := env_ok;
     rejects := λ op, bool_decide (op ∈ ops);
     product_id_of := product_id_of senv_ok;
     price_id_of := price_id_of senv_ok;
     signed := signed senv_ok |}.

Definition site0 : Site := {| stores := world0; products := []; prices := [] |}.

(** A course body with an identifier but no sections. *)
Definition body_c2 : CourseBody :=
  {| body_id := Some "c2"; body_title := "Iris"; body_teacherName := "Ada";
     body_price := 30; body_sections := None |}.

(** A course body without an identifier, with one section of one chapter. *)
Definition body_anonymous : CourseBody :=
  {| body_id := None; body_title := "stdpp"; body_teacherName := "Ada";
     body_price := 12;
     body_sections :=
       Some [ {| sectionId := "s1"; chapters := Some [ {| chapterId := "ch1" |} ] |} ] |}.

Definition purchase_c2 : PurchaseRequest :=
  {| req_userId := "u1"; req_courseId := "c2"; req_transactionId := "tx9";
     req_amount := 3000; req_paymentProvider := "stripe" |}.

(** ** Symbolic execution of the handlers *)

(** Membership in a log built by appending. *)
Ltac in_writes :=
  cbn; rewrite ?elem_of_app, ?list_elem_of_singleton; auto.

Lemma bind_eq {A B} (m : Async A) (k : A → Async B) (w : World) :
  (m ≫= k) w =
    match m w with
    | (Returned a, w') => k a w'
    | (Thrown e, w') => (Thrown e, w')
    end.
Proof. reflexivity. Qed.

Lemma ret_eq {A} (a : A) (w : World) : mret (M := Async) a w = (Returned a, w).
Proof. reflexivity. Qed.

Lemma call_eq {A} env op (action : Async A) (w : World) :
  call env op action w =
    if fails env op then (Thrown (DownstreamError op), w) else action w.
Proof. unfold call. by destruct (fails env op). Qed.

Lemma mapM_cons {A B} (f : A → Async B) (x : A) (l : list A) :
  mapM f (x :: l) = (y ← f x; k ← mapM f l; mret (y :: k)).
Proof. reflexivity. Qed.

Lemma mapM_chapters (l : list Chapter) (w : World) :
  mapM (M := Async) (λ chapter,
      mret {| cp_chapterId := chapterId chapter; completed := false |}) l w
  = (Returned (chapter_progress <$> l), w).
Proof.
  induction l as [|chapter l IH]; [done|].
  by rewrite mapM_cons, bind_eq, ret_eq, bind_eq, IH, ret_eq.
Qed.

Lemma mapM_sections (l : list CourseSection) (w : World) :
  mapM (M := Async) (λ section,
      chapters ← Array_map (chapters section) (λ chapter,
        mret {| cp_chapterId := chapterId chapter; completed := false |});
      mret {| sp_sectionId := sectionId section; sp_chapters := chapters |}) l w
  = match sections_progress l with
    | Some k => (Returned k, w)
    | None => (Thrown undefined_map, w)
    end.
Proof.
  induction l as [|section l IH]; [done|].
  rewrite mapM_cons, !bind_eq. cbn [sections_progress].
  unfold section_progress, Array_map at 1.
  destruct (chapters section) as [cs|]; [|done].
  rewrite mapM_chapters, ret_eq, bind_eq, IH.
  by destruct (sections_progress l).
Qed.

Lemma initialProgress_of_eq env req course w :
  initialProgress_of env req course w =
    match mirrored course with
    | Some l =>
        (Returned
           {| ucp_userId := req_userId req;
              ucp_courseId := req_courseId req;
              enrollmentDate := clock env (date_reads w);
              overallProgress := 0;
              ucp_sections := l;
              lastAccessedTimestamp := clock env (S (date_reads w)) |},
         tick (tick w))
    | None => (Thrown undefined_map, tick w)
    end.
Proof.
  unfold initialProgress_of, mirrored. rewrite bind_eq. cbn [Date_now].
  rewrite bind_eq. unfold Array_map at 1.
  destruct (sections course) as [l|]; [|done].
  rewrite mapM_sections.
  by destruct (sections_progress l).
Qed.

(** The purchase handler, case by case. *)
Lemma createTransaction_eq env req w :
  createTransaction env req w =
    if fails env OpCourseGet then (purchase_failed (DownstreamError OpCourseGet), w)
    else match courses w !! req_courseId req with
    | None => (res_status_json 404 (BMessage "Course not found"), w)
    | Some course =>
      if fails env OpTransactionSave
      then (purchase_failed (DownstreamError OpTransactionSave), tick w)
      else match mirrored course with
      | None => (purchase_failed undefined_map, tick (after_transaction env req w))
      | Some l =>
        if fails env OpProgressSave
        then (purchase_failed (DownstreamError OpProgressSave),
              tick (tick (after_transaction env req w)))
        else if fails env OpCourseAdd
        then (purchase_failed (DownstreamError OpCourseAdd), after_progress env req w l)
        else (purchased env req w l, after_enrollment env req w l)
      end
    end.
Proof.
  unfold createTransaction, try_catch. rewrite bind_eq.
  unfold Course_get. rewrite call_eq.
  destruct (fails env OpCourseGet); [done|].
  destruct (courses w !! req_courseId req) as [course|] eqn:Hc; [|done].
  rewrite bind_eq. cbn [Date_now]. rewrite bind_eq.
  unfold Transaction_save. rewrite call_eq.
  destruct (fails env OpTransactionSave); [done|].
  rewrite bind_eq, initialProgress_of_eq.
  fold (the_transaction env req w). 
  change (record _ (set_transactions _ (tick w))) with (after_transaction env req w).
  destruct (mirrored course) as [l|]; [|done].
  rewrite bind_eq. unfold UserCourseProgress_save. rewrite call_eq.
  destruct (fails env OpProgressSave); [done|].
  rewrite bind_eq. unfold Course_update_ADD_enrollments. rewrite call_eq.
  destruct (fails env OpCourseAdd); [done|].
  rewrite ret_eq. unfold purchased, after_enrollment, after_progress, the_progress.
  cbn. by rewrite Hc.
Qed.

(** ** The purchase workflow *)

Lemma purchase_failed_status error : status (purchase_failed error) ≠ 200.
Proof. done. Qed.

(** A purchase of an existing, well-formed course goes through when no
    awaited call rejects. *)
Lemma createTransaction_succeeds env req w course l :
  (∀ op, fails env op = false) →
  courses w !! req_courseId req = Some course →
  mirrored course = Some l →
  createTransaction env req w = (purchased env req w l, after_enrollment env req w l).
Proof.
  intros Hok Hc Hl. rewrite createTransaction_eq, !Hok, Hc, Hl. done.
Qed.

(** A purchase that answers 200 went through all three writes. *)
Lemma createTransaction_200 env req w res w' :
  createTransaction env req w = (res, w') →
  status res = 200 →
  ∃ course l,
    courses w !! req_courseId req = Some course ∧
    mirrored course = Some l ∧
    res = purchased env req w l ∧ w' = after_enrollment env req w l.
Proof.
  rewrite createTransaction_eq. intros Heq Hs.
  destruct (fails env OpCourseGet); [by simplify_eq|].
  destruct (courses w !! req_courseId req) as [course|]; [|by simplify_eq].
  destruct (fails env OpTransactionSave); [by simplify_eq|].
  destruct (mirrored course) as [l|] eqn:Hl; [|by simplify_eq].
  destruct (fails env OpProgressSave); [by simplify_eq|].
  destruct (fails env OpCourseAdd); [by simplify_eq|].
  simplify_eq. by exists course, l.
Qed.

(** C1, as amended: for an existing course, a successful purchase whose
    transaction identifier is not yet in the transaction store, whose
    (userId, courseId) has no progress record yet and whose user is not yet
    enrolled creates exactly one new Transaction, exactly one new
    UserCourseProgress under the key (userId, courseId) and exactly one new
    enrollment entry on the course, all carrying the request's userId and
    courseId. *)
Theorem createTransaction_one_of_each env req w res w' course :
  courses w !! req_courseId req = Some course →
  transactions w !! req_transactionId req = None →
  progress w !! (req_userId req, req_courseId req) = None →
  req_userId req ∉ enrollments course →
  createTransaction env req w = (res, w') →
  status res = 200 →
  ∃ t p course',
    body res = BPurchase "Purchased Course successfully" t p ∧
    (transactions w' = <[req_transactionId req := t]> (transactions w) ∧
     size (transactions w') = S (size (transactions w)) ∧
     tx_userId t = req_userId req ∧ tx_courseId t = req_courseId req) ∧
    (progress w' = <[(req_userId req, req_courseId req) := p]> (progress w) ∧
     size (progress w') = S (size (progress w)) ∧
     ucp_userId p = req_userId req ∧ ucp_courseId p = req_courseId req) ∧
    (courses w' = <[req_courseId req := course']> (courses w) ∧
     attrs course' = attrs course ∧ sections course' = sections course ∧
     enrollments course' = {[req_userId req]} ∪ enrollments course ∧
     size (enrollments course') = S (size (enrollments course))).
Proof.
  intros Hc Ht Hp Hu Heq Hs.
  destruct (createTransaction_200 _ _ _ _ _ Heq Hs) as (c & l & Hc' & _ & -> & ->).
  rewrite Hc in Hc'. injection Hc' as <-.
  exists (the_transaction env req w), (the_progress env req w l),
    (add_enrollment (req_userId req) (Some course)).
  cbn. rewrite Hc. repeat split.
  - by apply map_size_insert_None.
  - by apply map_size_insert_None.
  - cbn. rewrite size_union by set_solver. by rewrite size_singleton.
Qed.

Lemma createTransaction_one_of_each_witness :
  ∃ t p course',
    body (createTransaction env_ok purchase_u1 world0).1
      = BPurchase "Purchased Course successfully" t p ∧
    (transactions world1 = <["tx1" := t]> ∅ ∧
     size (transactions world1) = 1%nat ∧
     tx_userId t = "u1" ∧ tx_courseId t = "c1") ∧
    (progress world1 = <[("u1", "c1") := p]> ∅ ∧
     size (progress world1) = 1%nat ∧
     ucp_userId p = "u1" ∧ ucp_courseId p = "c1") ∧
    (courses world1 = <["c1" := course']> (courses world0) ∧
     attrs course' = attrs course_c1 ∧ sections course' = sections course_c1 ∧
     enrollments course' = {[ "u1" ]} ∪ ∅ ∧
     size (enrollments course') = 1%nat).
Proof.
  apply (createTransaction_one_of_each env_ok purchase_u1 world0
           (createTransaction env_ok purchase_u1 world0).1 world1 course_c1);
    [reflexivity | reflexivity | reflexivity | apply not_elem_of_empty
    | reflexivity | reflexivity].
Defined.

(** C1, as stated, fails when the purchase is repeated: the second call
    succeeds and adds no record to any of the three stores. *)
Lemma createTransaction_repeated_adds_nothing :
  ∃ res w' course,
    courses world1 !! "c1" = Some course ∧
    createTransaction env_ok purchase_u1 world1 = (res, w') ∧
    status res = 200 ∧
    size (transactions w') = size (transactions world1) ∧
    size (progress w') = size (progress world1) ∧
    (enrollments <$> courses w' !! "c1") = Some (enrollments course).
Proof.
  eexists _, _, _. split; [reflexivity|]. split; [reflexivity|].
  by vm_compute.
Qed.

Lemma sections_progress_mirrors (l : list CourseSection) (k : list SectionProgress) :
  sections_progress l = Some k → Forall2 mirrors_section l k.
Proof.
  revert k. induction l as [|section l IH]; intros k Hk; cbn in Hk.
  - injection Hk as <-. constructor.
  - unfold section_progress in Hk.
    destruct (chapters section) as [cs|] eqn:Hcs; [|done].
    destruct (sections_progress l) as [k'|]; [|done].
    injection Hk as <-. constructor; [|by apply IH].
    split; [done|]. exists cs. split; [done|]. cbn.
    clear. induction cs; constructor; done.
Qed.

(** C2: the progress record of a successful purchase mirrors the course
    as it is stored at purchase time: its sections stand one for one, in
    order, for the course's sections, each with one entry per chapter whose
    completion flag is false, and overallProgress is 0. *)
Theorem createTransaction_progress_mirrors_course env req w res w' course :
  courses w !! req_courseId req = Some course →
  createTransaction env req w = (res, w') →
  status res = 200 →
  ∃ t p l,
    body res = BPurchase "Purchased Course successfully" t p ∧
    progress w' !! (req_userId req, req_courseId req) = Some p ∧
    sections course = Some l ∧
    Forall2 mirrors_section l (ucp_sections p) ∧
    length (concat (sp_chapters <$> ucp_sections p))
      = length (concat (default [] <$> (chapters <$> l))) ∧
    Forall (λ sp, Forall (λ cp, completed cp = false) (sp_chapters sp)) (ucp_sections p) ∧
    overallProgress p = 0.
Proof.
  intros Hc Heq Hs.
  destruct (createTransaction_200 _ _ _ _ _ Heq Hs) as (c & k & Hc' & Hk & -> & ->).
  rewrite Hc in Hc'. injection Hc' as <-.
  unfold mirrored in Hk. destruct (sections course) as [l|] eqn:Hl; [|done].
  apply sections_progress_mirrors in Hk.
  exists (the_transaction env req w), (the_progress env req w k), l.
  cbn. rewrite lookup_insert_eq. repeat split; try done.
  - clear -Hk. induction Hk as [|s sp l k [_ (cs & Hcs & Hch)] _ IH]; [done|].
    cbn. rewrite !length_app, IH, Hcs. cbn. f_equal. symmetry. by eapply Forall2_length.
  - clear -Hk. induction Hk as [|s sp l k [_ (cs & _ & Hch)] _ IH]; constructor; [|done].
    clear -Hch. induction Hch as [|? ? ? ? [_ ?]]; constructor; done.
Qed.

Lemma createTransaction_progress_mirrors_course_witness :
  ∃ t p l,
    body (createTransaction env_ok purchase_u1 world0).1
      = BPurchase "Purchased Course successfully" t p ∧
    progress world1 !! ("u1", "c1") = Some p ∧
    sections course_c1 = Some l ∧
    Forall2 mirrors_section l (ucp_sections p) ∧
    length (concat (sp_chapters <$> ucp_sections p))
      = length (concat (default [] <$> (chapters <$> l))) ∧
    Forall (λ sp, Forall (λ cp, completed cp = false) (sp_chapters sp)) (ucp_sections p) ∧
    overallProgress p = 0.
Proof.
  apply (createTransaction_progress_mirrors_course env_ok purchase_u1 world0
           (createTransaction env_ok purchase_u1 world0).1 world1 course_c1);
    reflexivity.
Defined.

(** The spec's example: course "c1" with sections of one and of two
    chapters. *)
Example createTransaction_c1_sections :
  ucp_sections <$> progress world1 !! ("u1", "c1") =
    Some [ {| sp_sectionId := "s1";
              sp_chapters := [ {| cp_chapterId := "ch1"; completed := false |} ] |};
           {| sp_sectionId := "s2";
              sp_chapters := [ {| cp_chapterId := "ch2"; completed := false |};
                               {| cp_chapterId := "ch3"; completed := false |} ] |} ].
Proof. reflexivity. Qed.

(** C3: when the course identifier resolves to no course, the purchase
    writes nothing: the world, all stores included, is as before; and the
    answer is 404 "Course not found" whenever the lookup itself completes
    (a lookup that rejects is answered 500, still without a write). *)
Theorem createTransaction_unknown_course env req w res w' :
  courses w !! req_courseId req = None →
  createTransaction env req w = (res, w') →
  w' = w ∧
  status res ≠ 200 ∧
  (fails env OpCourseGet = false →
   res = res_status_json 404 (BMessage "Course not found")).
Proof.
  intros Hc. rewrite createTransaction_eq, Hc.
  destruct (fails env OpCourseGet); intros [= <- <-]; done.
Qed.

Lemma createTransaction_unknown_course_witness :
  (createTransaction env_ok purchase_unknown world0).2 = world0 ∧
  status (createTransaction env_ok purchase_unknown world0).1 ≠ 200 ∧
  (fails env_ok OpCourseGet = false →
   (createTransaction env_ok purchase_unknown world0).1
   = res_status_json 404 (BMessage "Course not found")).
Proof.
  apply (createTransaction_unknown_course env_ok purchase_unknown world0);
    reflexivity.
Defined.

(** C4: for an existing course whose lookup completed, when the
    transaction save, the progress initialisation or save, or the
    enrollment append fails, the caller gets the one generic 500 answer
    "Error creating transaction and enrollment", and nothing is rolled
    back: unless the transaction save itself was the failure, the
    Transaction is in the store afterwards (and so is the progress record
    when the failure came after its save); the enrollment is never applied. *)
Theorem createTransaction_failure_no_rollback env req w res w' course :
  courses w !! req_courseId req = Some course →
  fails env OpCourseGet = false →
  fails env OpTransactionSave = true ∨ mirrored course = None ∨
    fails env OpProgressSave = true ∨ fails env OpCourseAdd = true →
  createTransaction env req w = (res, w') →
  (∃ error,
     res = res_status_json 500
             (BError "Error creating transaction and enrollment" error)) ∧
  courses w' = courses w ∧
  (fails env OpTransactionSave = true →
   transactions w' = transactions w ∧ progress w' = progress w ∧
   writes w' = writes w) ∧
  (fails env OpTransactionSave = false →
   transactions w' = <[req_transactionId req := the_transaction env req w]> (transactions w) ∧
   transactions w' !! req_transactionId req = Some (the_transaction env req w) ∧
   WTransaction (the_transaction env req w) ∈ writes w') ∧
  (fails env OpTransactionSave = false → fails env OpProgressSave = false →
   ∀ l, mirrored course = Some l →
     progress w' !! (req_userId req, req_courseId req) = Some (the_progress env req w l)).
Proof.
  intros Hc Hget Hfail. rewrite createTransaction_eq, Hget, Hc.
  destruct (fails env OpTransactionSave) eqn:Hts.
  { intros [= <- <-]. split; [by eexists|]. done. }
  destruct (mirrored course) as [l|] eqn:Hl.
  2:{ intros [= <- <-]. split; [by eexists|]. cbn.
      rewrite lookup_insert_eq. repeat split; try done. in_writes. }
  destruct (fails env OpProgressSave) eqn:Hps.
  { intros [= <- <-]. split; [by eexists|]. cbn.
    rewrite lookup_insert_eq. repeat split; try done. in_writes. }
  destruct (fails env OpCourseAdd) eqn:Hadd.
  2:{ destruct Hfail as [?|[?|[?|?]]]; done. }
  intros [= <- <-]. split; [by eexists|]. cbn.
  rewrite lookup_insert_eq. repeat split; try done.
  - in_writes.
  - intros _ _ ? [= <-]. by rewrite lookup_insert_eq.
Qed.

Lemma createTransaction_failure_no_rollback_witness :
  let res := (createTransaction (env_failing [OpCourseAdd]) purchase_u1 world0).1 in
  let w' := (createTransaction (env_failing [OpCourseAdd]) purchase_u1 world0).2 in
  (∃ error,
     res = res_status_json 500
             (BError "Error creating transaction and enrollment" error)) ∧
  courses w' = courses world0 ∧
  (fails (env_failing [OpCourseAdd]) OpTransactionSave = true →
   transactions w' = transactions world0 ∧ progress w' = progress world0 ∧
   writes w' = writes world0) ∧
  (fails (env_failing [OpCourseAdd]) OpTransactionSave = false →
   transactions w'
     = <["tx1" := the_transaction (env_failing [OpCourseAdd]) purchase_u1 world0]> ∅ ∧
   transactions w' !! "tx1"
     = Some (the_transaction (env_failing [OpCourseAdd]) purchase_u1 world0) ∧
   WTransaction (the_transaction (env_failing [OpCourseAdd]) purchase_u1 world0)
     ∈ writes w') ∧
  (fails (env_failing [OpCourseAdd]) OpTransactionSave = false →
   fails (env_failing [OpCourseAdd]) OpProgressSave = false →
   ∀ l, mirrored course_c1 = Some l →
     progress w' !! ("u1", "c1")
       = Some (the_progress (env_failing [OpCourseAdd]) purchase_u1 world0 l)).
Proof.
  apply (createTransaction_failure_no_rollback (env_failing [OpCourseAdd])
           purchase_u1 world0 _ _ course_c1);
    [reflexivity | reflexivity | right; right; right; reflexivity | reflexivity].
Defined.

(** C5: in every execution, whatever fails, the writes of a purchase are
    an initial part of: the Transaction, then the UserCourseProgress, then
    the enrollment append.  So no progress record and no enrollment is
    written unless the Transaction was written before it. *)
Theorem createTransaction_write_order env req w :
  ∃ t p new,
    writes (createTransaction env req w).2 = (writes w ++ new)%list ∧
    new `prefix_of`
      [WTransaction t; WProgress p; WEnroll (req_courseId req) (req_userId req)].
Proof.
  rewrite createTransaction_eq.
  exists (the_transaction env req w),
    (the_progress env req w
       (default [] (courses w !! req_courseId req ≫= mirrored))).
  destruct (fails env OpCourseGet).
  { exists []. cbn. rewrite app_nil_r. split; [done|]. apply prefix_nil. }
  destruct (courses w !! req_courseId req) as [course|].
  2:{ exists []. cbn. rewrite app_nil_r. split; [done|]. apply prefix_nil. }
  destruct (fails env OpTransactionSave).
  { exists []. cbn. rewrite app_nil_r. split; [done|]. apply prefix_nil. }
  cbn [mbind option_bind].
  destruct (mirrored course) as [l|].
  2:{ eexists [_]. split; [done|]. by eexists [_; _]. }
  destruct (fails env OpProgressSave).
  { eexists [_]. split; [done|]. by eexists [_; _]. }
  destruct (fails env OpCourseAdd).
  - eexists [_; _]. split; [cbn; by rewrite <- app_assoc|]. by eexists [_].
  - eexists [_; _; _]. split; [cbn; by rewrite <- !app_assoc|]. done.
Qed.

(** ** The enrollment append *)

Lemma Course_update_ADD_enrollments_eq env id userId w :
  Course_update_ADD_enrollments env id userId w =
    if fails env OpCourseAdd then (Thrown (DownstreamError OpCourseAdd), w)
    else (Returned (),
          record (WEnroll id userId)
            (set_courses <[id := add_enrollment userId (courses w !! id)]> w)).
Proof. unfold Course_update_ADD_enrollments. by rewrite call_eq. Qed.

Lemma add_enrollment_idem userId doc :
  add_enrollment userId (Some (add_enrollment userId doc)) = add_enrollment userId doc.
Proof.
  destruct doc as [c|]; cbn; f_equal.
  - by rewrite (assoc_L (∪)), (idemp_L (∪)).
  - by rewrite (idemp_L (∪)).
Qed.

Lemma add_enrollment_comm u1 u2 doc :
  add_enrollment u1 (Some (add_enrollment u2 doc))
  = add_enrollment u2 (Some (add_enrollment u1 doc)).
Proof.
  destruct doc as [c|]; cbn; f_equal.
  - by rewrite !(assoc_L (∪)), (comm_L (∪) {[u1]}).
  - apply (comm_L (∪)).
Qed.

(** ** The payment intent issuer *)

Lemma stripe_paymentIntents_create_eq env n w :
  stripe_paymentIntents_create env (Some n) w =
    if fails env OpPaymentIntent then (Thrown (DownstreamError OpPaymentIntent), w)
    else
      let i := {| pi_amount := n; currency := "usd";
                  automatic_payment_methods_enabled := true;
                  allow_redirects := "never";
                  client_secret := secret_of env (length (intents w)) |} in
      (Returned i, record (WIntent n) (set_intents (λ l, (l ++ [i])%list) w)).
Proof. unfold stripe_paymentIntents_create. by rewrite call_eq. Qed.

(** C7: an amount that is absent, zero or negative is not rejected: the
    call behaves exactly as the call with amount 50; when the gateway
    accepts, one intent of amount 50 is created and its client secret is
    answered with status 200; the only other answer is the 500 of a gateway
    failure. *)
Theorem createStripePaymentIntent_minimum_charge env amount w :
  amount = None ∨ (∃ n, amount = Some n ∧ n ≤ 0) →
  createStripePaymentIntent env amount w = createStripePaymentIntent env (Some 50) w ∧
  (fails env OpPaymentIntent = false →
   ∃ i w',
     createStripePaymentIntent env amount w
       = (res_json (BClientSecret "" (client_secret i)), w') ∧
     pi_amount i = 50 ∧
     intents w' = (intents w ++ [i])%list ∧
     writes w' = (writes w ++ [WIntent 50])%list) ∧
  (fails env OpPaymentIntent = true →
   createStripePaymentIntent env amount w
     = (res_status_json 500
          (BError "Error creating stripe payment intent"
             (DownstreamError OpPaymentIntent)), w)).
Proof.
  intros Hamount.
  assert (amount_rejected amount = true) as Hrej.
  { destruct Hamount as [->|(n & -> & Hn)]; [done|]. cbn.
    apply orb_true_iff. right. by apply Z.leb_le. }
  unfold createStripePaymentIntent. rewrite Hrej. cbn [amount_rejected].
  change ((50 =? 0) || (50 <=? 0)) with false. cbn iota.
  unfold try_catch. rewrite bind_eq, stripe_paymentIntents_create_eq.
  split; [done|].
  split; intros ->; [|done].
  eexists _, _. split; [reflexivity|]. done.
Qed.

Lemma createStripePaymentIntent_minimum_charge_witness :
  createStripePaymentIntent env_ok (Some (-5)) world0
    = createStripePaymentIntent env_ok (Some 50) world0 ∧
  (fails env_ok OpPaymentIntent = false →
   ∃ i w',
     createStripePaymentIntent env_ok (Some (-5)) world0
       = (res_json (BClientSecret "" (client_secret i)), w') ∧
     pi_amount i = 50 ∧
     intents w' = (intents world0 ++ [i])%list ∧
     writes w' = (writes world0 ++ [WIntent 50])%list) ∧
  (fails env_ok OpPaymentIntent = true →
   createStripePaymentIntent env_ok (Some (-5)) world0
     = (res_status_json 500
          (BError "Error creating stripe payment intent"
             (DownstreamError OpPaymentIntent)), world0)).
Proof.
  apply (createStripePaymentIntent_minimum_charge env_ok (Some (-5)) world0).
  right. exists (-5). split; [reflexivity | lia].
Defined.

Example createStripePaymentIntent_zero :
  (createStripePaymentIntent env_ok (Some 0) world0).1
    = res_json (BClientSecret "" "pi_1_secret_1") ∧
  writes (createStripePaymentIntent env_ok (Some 0) world0).2 = [WIntent 50].
Proof. split; reflexivity. Qed.

Example createStripePaymentIntent_absent :
  writes (createStripePaymentIntent env_ok None world0).2 = [WIntent 50].
Proof. reflexivity. Qed.

Example createStripePaymentIntent_valid :
  writes (createStripePaymentIntent env_ok (Some 4999) world0).2 = [WIntent 4999].
Proof. reflexivity. Qed.

(** ** Transaction listing *)

Lemma truthy_Some_ne (u : string) : u ≠ "" → truthy (Some u) = true.
Proof.
  intros Hu. cbn. apply negb_true_iff. by apply String.eqb_neq.
Qed.

Lemma scan_all (w : World) (t : Transaction) :
  t ∈ (map_to_list (transactions w)).*2 ↔ ∃ k, transactions w !! k = Some t.
Proof.
  rewrite list_elem_of_fmap. split.
  - intros ([k t'] & -> & Hin). exists k. by apply elem_of_map_to_list.
  - intros (k & Hk). exists (k, t). split; [done|]. by apply elem_of_map_to_list.
Qed.

(** C10: without a userId the listing does not fail and is not scoped
    to a user: it answers 200 with every Transaction of the store, each
    once (an empty userId is treated the same way); with a non-empty userId
    it answers exactly the stored Transactions of that user.  The store is
    left as it is. *)
Theorem listTransactions_scan_or_query env userId w :
  (userId = None ∨ userId = Some "" →
   fails env OpTransactionScan = false →
   ∃ data,
     listTransactions env userId w
       = (res_json (BTransactions "Transactions retrieved successfully" data), w) ∧
     data = (map_to_list (transactions w)).*2 ∧
     length data = size (transactions w) ∧
     (∀ t, t ∈ data ↔ ∃ k, transactions w !! k = Some t)) ∧
  (∀ u, userId = Some u → u ≠ "" →
   fails env OpTransactionQuery = false →
   ∃ data,
     listTransactions env userId w
       = (res_json (BTransactions "Transactions retrieved successfully" data), w) ∧
     (∀ t, t ∈ data ↔ (∃ k, transactions w !! k = Some t) ∧ tx_userId t = u)).
Proof.
  split.
  - intros Hu Hok.
    assert (truthy userId = false) as Ht by (by destruct Hu as [-> | ->]).
    unfold listTransactions, try_catch. rewrite Ht, bind_eq.
    unfold Transaction_scan. rewrite call_eq, Hok, ret_eq.
    eexists. split; [reflexivity|]. split; [done|]. split.
    + by rewrite length_fmap, length_map_to_list.
    + apply scan_all.
  - intros u -> Hu Hok.
    unfold listTransactions, try_catch. rewrite (truthy_Some_ne u Hu), bind_eq.
    unfold Transaction_query_userId_eq. rewrite call_eq, Hok, ret_eq.
    eexists. split; [reflexivity|]. intros t. cbn.
    rewrite list_elem_of_filter, scan_all. tauto.
Qed.

Lemma listTransactions_scan_or_query_witness :
  ∃ data,
    listTransactions env_ok None world1
      = (res_json (BTransactions "Transactions retrieved successfully" data), world1) ∧
    data = (map_to_list (transactions world1)).*2 ∧
    length data = size (transactions world1) ∧
    (∀ t, t ∈ data ↔ ∃ k, transactions world1 !! k = Some t).
Proof.
  apply (listTransactions_scan_or_query env_ok None world1);
    [left; reflexivity | reflexivity].
Defined.

Example listTransactions_all :
  (listTransactions env_ok None world1).1
    = res_json (BTransactions "Transactions retrieved successfully"
                  [the_transaction env_ok purchase_u1 world0]).
Proof. reflexivity. Qed.

Example listTransactions_other_user :
  (listTransactions env_ok (Some "u2") world1).1
    = res_json (BTransactions "Transactions retrieved successfully" []).
Proof. reflexivity. Qed.

(** ** Course update with an optional image *)

Lemma Course_update_eq env id u w :
  Course_update env id u w =
    if fails env OpCourseUpdate then (Thrown (DownstreamError OpCourseUpdate), w)
    else (Returned (apply_updates u (courses w !! id)),
          record (WCoursePatch id u)
            (set_courses <[id := apply_updates u (courses w !! id)]> w)).
Proof. unfold Course_update. by rewrite call_eq. Qed.

Lemma s3Client_send_eq env command w :
  s3Client_send env command w =
    if fails env OpPutObject then (Thrown (DownstreamError OpPutObject), w)
    else (Returned (),
          record (WObject command) (set_objects <[Key command := command]> w)).
Proof. unfold s3Client_send. by rewrite call_eq. Qed.

Lemma apply_updates_imageUrl url u doc :
  attrs (apply_updates (set_imageUrl url u) doc) !! "imageUrl" = Some (JStr url).
Proof.
  destruct doc as [c|]; cbn.
  - apply lookup_union_Some_l, lookup_insert_eq.
  - apply lookup_insert_eq.
Qed.

(** C9: with an image, the upload to the object store comes first (when
    it fails, the catalog store is not written at all), the URL of the
    uploaded object is set as imageUrl in the payload, and that payload is
    what is applied to the course; without an image the payload is applied
    as it came. *)
Theorem updateCourse_image_first env req w :
  let courseId := params_courseId req in
  (∀ file, req_file req = Some file →
     let command := upload_of env courseId file in
     let url := object_url env courseId file in
     let updates := set_imageUrl url (req_body req) in
     url = "https://" +:+ template (AWS_S3_BUCKET env) +:+ ".s3." +:+ AWS_REGION env
             +:+ ".amazonaws.com/" +:+ Key command ∧
     (fails env OpPutObject = true →
      updateCourse env req w
        = (res_status_json 500
             (BError "Error updating course" (DownstreamError OpPutObject)), w)) ∧
     (fails env OpPutObject = false → fails env OpCourseUpdate = false →
      ∃ course w',
        updateCourse env req w = (res_status_json 200 (BCourse course), w') ∧
        writes w' = (writes w ++ [WObject command; WCoursePatch courseId updates])%list ∧
        objects w' = <[Key command := command]> (objects w) ∧
        course = apply_updates updates (courses w !! courseId) ∧
        courses w' = <[courseId := course]> (courses w) ∧
        attrs course !! "imageUrl" = Some (JStr url))) ∧
  (req_file req = None → fails env OpCourseUpdate = false →
   ∃ course w',
     updateCourse env req w = (res_status_json 200 (BCourse course), w') ∧
     writes w' = (writes w ++ [WCoursePatch courseId (req_body req)])%list ∧
     objects w' = objects w ∧
     course = apply_updates (req_body req) (courses w !! courseId) ∧
     courses w' = <[courseId := course]> (courses w)).
Proof.
  intros courseId. split.
  - intros file Hfile command url updates. split; [reflexivity|].
    unfold updateCourse, try_catch. rewrite Hfile, !bind_eq, s3Client_send_eq.
    split; [by intros ->|]. intros -> Hok.
    rewrite ret_eq, bind_eq, Course_update_eq, Hok, ret_eq.
    eexists _, _. split; [reflexivity|]. cbn.
    rewrite <- app_assoc. repeat split. apply apply_updates_imageUrl.
  - intros Hfile Hok.
    unfold updateCourse, try_catch. rewrite Hfile, bind_eq, ret_eq, bind_eq.
    rewrite Course_update_eq, Hok, ret_eq.
    eexists _, _. split; [reflexivity|]. done.
Qed.

Lemma updateCourse_image_first_witness :
  let command := upload_of env_ok "c1" cover_png in
  let url := object_url env_ok "c1" cover_png in
  let updates := set_imageUrl url retitle in
  url = "https://lms-bucket.s3.us-east-1.amazonaws.com/courses/c1/cover.png" ∧
  ∃ course w',
    updateCourse env_ok update_with_image world0
      = (res_status_json 200 (BCourse course), w') ∧
    writes w' = [WObject command; WCoursePatch "c1" updates] ∧
    objects w' = <[Key command := command]> ∅ ∧
    course = apply_updates updates (Some course_c1) ∧
    courses w' = <["c1" := course]> (courses world0) ∧
    attrs course !! "imageUrl" = Some (JStr url).
Proof.
  intros command url updates. split; [reflexivity|].
  apply (updateCourse_image_first env_ok update_with_image world0);
    reflexivity.
Defined.

Example updateCourse_without_image :
  writes (updateCourse env_ok update_without_image world0).2
    = [WCoursePatch "c1" retitle].
Proof. reflexivity. Qed.

Example updateCourse_upload_rejected :
  updateCourse (env_failing [OpPutObject]) update_with_image world0
    = (res_status_json 500
         (BError "Error updating course" (DownstreamError OpPutObject)), world0).
Proof. reflexivity. Qed.

(** ** The handler, one awaited call at a time *)

Lemma step_Called env req w :
  step env (Called req) w =
    if fails env OpCourseGet
    then (Responded (purchase_failed (DownstreamError OpCourseGet)), w)
    else match courses w !! req_courseId req with
         | Some course => (Found req course, w)
         | None => (Responded (res_status_json 404 (BMessage "Course not found")), w)
         end.
Proof.
  unfold step, await, try_catch, Course_get. rewrite bind_eq, call_eq.
  destruct (fails env OpCourseGet); [done|].
  by destruct (courses w !! req_courseId req).
Qed.

Lemma step_Found env req course w :
  step env (Found req course) w =
    if fails env OpTransactionSave
    then (Responded (purchase_failed (DownstreamError OpTransactionSave)), tick w)
    else (Recorded req course (the_transaction env req w), after_transaction env req w).
Proof.
  unfold step, await, try_catch, Transaction_save.
  rewrite !bind_eq. cbn [Date_now]. rewrite bind_eq, call_eq.
  by destruct (fails env OpTransactionSave).
Qed.

Lemma step_Recorded env req course tx w :
  step env (Recorded req course tx) w =
    match mirrored course with
    | None => (Responded (purchase_failed undefined_map), tick w)
    | Some l =>
        let p := {| ucp_userId := req_userId req;
                    ucp_courseId := req_courseId req;
                    enrollmentDate := clock env (date_reads w);
                    overallProgress := 0;
                    ucp_sections := l;
                    lastAccessedTimestamp := clock env (S (date_reads w)) |} in
        if fails env OpProgressSave
        then (Responded (purchase_failed (DownstreamError OpProgressSave)), tick (tick w))
        else (Initialized req tx p,
              record (WProgress p)
                (set_progress <[(req_userId req, req_courseId req) := p]> (tick (tick w))))
    end.
Proof.
  unfold step, await, try_catch, UserCourseProgress_save.
  rewrite !bind_eq, initialProgress_of_eq.
  destruct (mirrored course) as [l|]; [|done].
  rewrite bind_eq, call_eq.
  by destruct (fails env OpProgressSave).
Qed.

Lemma step_Initialized env req tx p w :
  step env (Initialized req tx p) w =
    if fails env OpCourseAdd
    then (Responded (purchase_failed (DownstreamError OpCourseAdd)), w)
    else (Responded (res_json (BPurchase "Purchased Course successfully" tx p)),
          record (WEnroll (req_courseId req) (req_userId req))
            (set_courses
               <[req_courseId req :=
                   add_enrollment (req_userId req) (courses w !! req_courseId req)]> w)).
Proof.
  unfold step, await, try_catch.
  rewrite bind_eq, Course_update_ADD_enrollments_eq.
  by destruct (fails env OpCourseAdd).
Qed.

(** Running the four awaited calls one after the other is the handler. *)
Lemma createTransaction_run env req w :
  run env 4 (Called req) w =
    (Responded (createTransaction env req w).1, (createTransaction env req w).2).
Proof.
  rewrite createTransaction_eq. cbn [run]. rewrite step_Called.
  destruct (fails env OpCourseGet); [done|].
  destruct (courses w !! req_courseId req) as [course|] eqn:Hc; [|done].
  rewrite step_Found.
  destruct (fails env OpTransactionSave); [done|].
  rewrite step_Recorded.
  destruct (mirrored course) as [l|]; [|done]. cbn zeta.
  destruct (fails env OpProgressSave); [done|].
  rewrite step_Initialized.
  destruct (fails env OpCourseAdd); [done|].
  reflexivity.
Qed.

(** C6: the enrollment append of step 4 is a set union on the stored
    document: it adds the user to the enrollment collection the store
    holds at that moment and leaves the rest of that document and all
    other documents alone; appending the same user again changes nothing;
    two appends commute.  The handler's last awaited call is this append:
    it takes the stored document as it is then, and the copy of the course
    the handler read at its start is not written back. *)
Theorem enrollment_append_is_idempotent_union env id u1 u2 w :
  fails env OpCourseAdd = false →
  let add := λ u w, (Course_update_ADD_enrollments env id u w).2 in
  (∀ c, courses w !! id = Some c →
        courses (add u1 w) !! id
        = Some {| attrs := attrs c; sections := sections c;
                  enrollments := {[u1]} ∪ enrollments c |}) ∧
  (∀ id', id' ≠ id → courses (add u1 w) !! id' = courses w !! id') ∧
  transactions (add u1 w) = transactions w ∧
  progress (add u1 w) = progress w ∧
  courses (add u1 (add u1 w)) = courses (add u1 w) ∧
  courses (add u1 (add u2 w)) = courses (add u2 (add u1 w)) ∧
  (∀ req tx p, req_courseId req = id → req_userId req = u1 →
     courses (step env (Initialized req tx p) w).2 = courses (add u1 w)) ∧
  (∀ req stale tx, req_courseId req = id → req_userId req = u1 →
     fails env OpProgressSave = false → is_Some (mirrored stale) →
     courses (run env 2 (Recorded req stale tx) w).2 = courses (add u1 w)).
Proof.
  intros Hok add. subst add. cbn beta. split_and!.
  - intros c Hc. rewrite Course_update_ADD_enrollments_eq, Hok. cbn.
    by rewrite lookup_insert_eq, Hc.
  - intros id' Hne. rewrite Course_update_ADD_enrollments_eq, Hok. cbn.
    by rewrite lookup_insert_ne.
  - by rewrite Course_update_ADD_enrollments_eq, Hok.
  - by rewrite Course_update_ADD_enrollments_eq, Hok.
  - rewrite !Course_update_ADD_enrollments_eq, !Hok. cbn.
    by rewrite lookup_insert_eq, add_enrollment_idem, insert_insert_eq.
  - rewrite !Course_update_ADD_enrollments_eq, !Hok. cbn.
    by rewrite !lookup_insert_eq, add_enrollment_comm, !insert_insert_eq.
  - intros req tx p <- <-.
    by rewrite step_Initialized, Course_update_ADD_enrollments_eq, Hok.
  - intros req stale tx <- <- Hps [l Hl]. cbn [run].
    rewrite step_Recorded, Hl. cbn zeta.
    by rewrite Hps, step_Initialized, Course_update_ADD_enrollments_eq, Hok.
Qed.

Lemma enrollment_append_is_idempotent_union_witness :
  let add := λ u w, (Course_update_ADD_enrollments env_ok "c1" u w).2 in
  courses (add "u1" world0) !! "c1"
    = Some {| attrs := attrs course_c1; sections := sections course_c1;
              enrollments := {[ "u1" ]} ∪ ∅ |} ∧
  courses (add "u1" (add "u1" world0)) = courses (add "u1" world0) ∧
  courses (add "u1" (add "u2" world0)) = courses (add "u2" (add "u1" world0)).
Proof.
  intros add.
  destruct (enrollment_append_is_idempotent_union env_ok "c1" "u1" "u2" world0)
    as (Hunion & _ & _ & _ & Hidem & Hcomm & _); [reflexivity|].
  split; [apply Hunion; reflexivity|]. split; [exact Hidem | exact Hcomm].
Defined.

(** A read-modify-write of the course would lose an enrollment here: the
    document "u1"'s handler read at its start does not hold "u2", who is
    enrolled while that handler is suspended; the append keeps both. *)
Example enrollment_append_keeps_later_enrollment :
  let w := (Course_update_ADD_enrollments env_ok "c1" "u2" world0).2 in
  enrollments <$>
    courses (run env_ok 2
               (Recorded purchase_u1 course_c1
                  (the_transaction env_ok purchase_u1 world0)) w).2 !! "c1"
  = Some ({[ "u1" ]} ∪ ({[ "u2" ]} ∪ ∅)).
Proof. reflexivity. Qed.

(** One awaited call of a handler that is on track, in a world where the
    course is stored and no call rejects. *)
Lemma step_on_track env l req t w t' w' c :
  (∀ op, fails env op = false) →
  on_track req l t →
  courses w !! req_courseId req = Some c →
  mirrored c = Some l →
  step env t w = (t', w') →
  on_track req l t' ∧
  stage t' = Nat.min 4 (S (stage t)) ∧
  ∃ c', courses w' !! req_courseId req = Some c' ∧
        sections c' = sections c ∧
        ((enrolled req t = ∅ ∧ enrolled req t' = {[req_userId req]} ∧
          enrollments c' = {[req_userId req]} ∪ enrollments c) ∨
         (enrolled req t' = enrolled req t ∧ enrollments c' = enrollments c)).
Proof.
  intros Hok Ht Hc Hl Hstep. destruct t as [r|r c0|r c0 tx|r tx p|res]; cbn in Ht.
  - subst r. rewrite step_Called, Hok, Hc in Hstep. injection Hstep as <- <-.
    repeat split; try done. exists c. auto.
  - destruct Ht as [-> Hl0]. rewrite step_Found, Hok in Hstep.
    injection Hstep as <- <-. repeat split; try done. exists c. auto.
  - destruct Ht as (-> & Hl0 & Hu & Hi). rewrite step_Recorded, Hl0 in Hstep.
    cbn zeta in Hstep. rewrite Hok in Hstep. injection Hstep as <- <-.
    repeat split; try done. exists c. auto.
  - destruct Ht as (-> & Hu & Hi & Hpu & Hpi). rewrite step_Initialized, Hok in Hstep.
    injection Hstep as <- <-. split; [by eexists _, _|]. split; [done|].
    cbn. rewrite lookup_insert_eq, Hc. eexists. split; [done|]. cbn. auto.
  - injection Hstep as <- <-. repeat split; try done. exists c. auto.
Qed.

Lemma mirrored_sections c1 c2 : sections c1 = sections c2 → mirrored c1 = mirrored c2.
Proof. unfold mirrored. by intros ->. Qed.

Lemma turns_cons_same who schedule : turns who (who :: schedule) = S (turns who schedule).
Proof. unfold turns. by rewrite filter_cons_True. Qed.

Lemma turns_cons_other who b schedule :
  b ≠ who → turns who (b :: schedule) = turns who schedule.
Proof. intros Hb. unfold turns. by rewrite filter_cons_False. Qed.

Section Together.
Context (env : Env) (course : Course) (l : list SectionProgress).
Context (ra rb : PurchaseRequest).
Hypothesis no_failure : ∀ op, fails env op = false.
Hypothesis same_course : req_courseId rb = req_courseId ra.
Hypothesis well_formed : mirrored course = Some l.

Lemma step_together_first a b w a' w' :
  together (req_courseId ra) course l ra rb a b w →
  step env a w = (a', w') →
  together (req_courseId ra) course l ra rb a' b w' ∧
  stage a' = Nat.min 4 (S (stage a)).
Proof.
  intros (Ha & Hb & c & Hc & Hs & He) Hstep.
  assert (mirrored c = Some l) as Hl
    by (by rewrite (mirrored_sections c course)).
  destruct (step_on_track env l ra a w a' w' c no_failure Ha Hc Hl Hstep)
    as (Ha' & Hst & c' & Hc' & Hs' & Hen).
  split; [|done]. split; [done|]. split; [done|].
  exists c'. split; [done|]. split; [congruence|].
  destruct Hen as [(H0 & H1 & ->)|(H1 & ->)]; rewrite He, H1.
  - by rewrite H0, (left_id_L ∅ (∪)), !(assoc_L (∪)).
  - done.
Qed.

Lemma step_together_second a b w b' w' :
  together (req_courseId ra) course l ra rb a b w →
  step env b w = (b', w') →
  together (req_courseId ra) course l ra rb a b' w' ∧
  stage b' = Nat.min 4 (S (stage b)).
Proof.
  intros (Ha & Hb & c & Hc & Hs & He) Hstep.
  assert (mirrored c = Some l) as Hl
    by (by rewrite (mirrored_sections c course)).
  rewrite <- same_course in Hc.
  destruct (step_on_track env l rb b w b' w' c no_failure Hb Hc Hl Hstep)
    as (Hb' & Hst & c' & Hc' & Hs' & Hen).
  rewrite same_course in Hc'.
  split; [|done]. split; [done|]. split; [done|].
  exists c'. split; [done|]. split; [congruence|].
  destruct Hen as [(H0 & H1 & ->)|(H1 & ->)]; rewrite He, H1.
  - by rewrite H0, (right_id_L ∅ (∪)), !(assoc_L (∪)), (comm_L (∪) {[req_userId rb]}).
  - done.
Qed.

Lemma interleave_together schedule : ∀ a b w a' b' w',
  together (req_courseId ra) course l ra rb a b w →
  interleave env schedule a b w = (a', b', w') →
  together (req_courseId ra) course l ra rb a' b' w' ∧
  stage a' = Nat.min 4 (stage a + turns true schedule)%nat ∧
  stage b' = Nat.min 4 (stage b + turns false schedule)%nat.
Proof.
  induction schedule as [|who schedule IH]; intros a b w a' b' w' Hinv Hrun.
  - injection Hrun as <- <- <-. split; [done|].
    unfold turns. cbn. rewrite !Nat.add_0_r.
    split; [destruct a|destruct b]; done.
  - destruct who; cbn [interleave] in Hrun.
    + destruct (step env a w) as [a1 w1] eqn:Hstep.
      destruct (step_together_first _ _ _ _ _ Hinv Hstep) as [Hinv1 Hst].
      destruct (IH _ _ _ _ _ _ Hinv1 Hrun) as (Hinv' & Ha' & Hb').
      split; [done|].
      rewrite turns_cons_same, turns_cons_other by done. lia.
    + destruct (step env b w) as [b1 w1] eqn:Hstep.
      destruct (step_together_second _ _ _ _ _ Hinv Hstep) as [Hinv1 Hst].
      destruct (IH _ _ _ _ _ _ Hinv1 Hrun) as (Hinv' & Ha' & Hb').
      split; [done|].
      rewrite turns_cons_same, turns_cons_other by done. lia.
Qed.
End Together.

Lemma on_track_finished req l t :
  on_track req l t → stage t = 4%nat →
  succeeded req t ∧ enrolled req t = {[req_userId req]}.
Proof. destruct t; done. Qed.

(** C8: two purchases of the same course served together, in whatever
    order their awaited calls complete: when no call rejects and the course
    is well formed, both are answered 200 with their own transaction and
    progress record, and the course's enrollment collection afterwards is
    the one before plus both users. *)
Theorem concurrent_purchases_both_enrolled env ra rb w course l schedule a b w' :
  (∀ op, fails env op = false) →
  req_courseId rb = req_courseId ra →
  courses w !! req_courseId ra = Some course →
  mirrored course = Some l →
  (4 ≤ turns true schedule)%nat →
  (4 ≤ turns false schedule)%nat →
  interleave env schedule (Called ra) (Called rb) w = (a, b, w') →
  succeeded ra a ∧ succeeded rb b ∧
  ∃ c', courses w' !! req_courseId ra = Some c' ∧
        enrollments c' = {[req_userId ra]} ∪ {[req_userId rb]} ∪ enrollments course.
Proof.
  intros Hok Hsame Hc Hl Hta Htb Hrun.
  assert (together (req_courseId ra) course l ra rb (Called ra) (Called rb) w) as Hinv.
  { split; [done|]. split; [done|]. exists course. cbn.
    by rewrite !(left_id_L ∅ (∪)). }
  destruct (interleave_together env course l ra rb Hok Hsame Hl
              schedule _ _ _ _ _ _ Hinv Hrun)
    as ((Ha & Hb & c' & Hc' & _ & He) & Hsa & Hsb).
  cbn [stage] in Hsa, Hsb.
  destruct (on_track_finished ra l a Ha) as [Ha' Hea]; [lia|].
  destruct (on_track_finished rb l b Hb) as [Hb' Heb]; [lia|].
  split; [done|]. split; [done|].
  exists c'. split; [done|]. by rewrite He, Hea, Heb.
Qed.

Lemma concurrent_purchases_both_enrolled_witness :
  let schedule := [true; false; false; true; true; false; true; false] in
  let result := interleave env_ok schedule (Called purchase_u1) (Called purchase_u2) world0 in
  succeeded purchase_u1 result.1.1 ∧ succeeded purchase_u2 result.1.2 ∧
  ∃ c', courses result.2 !! "c1" = Some c' ∧
        enrollments c' = {[ "u1" ]} ∪ {[ "u2" ]} ∪ ∅.
Proof.
  intros schedule result.
  apply (concurrent_purchases_both_enrolled env_ok purchase_u1 purchase_u2 world0
           course_c1
           [ {| sp_sectionId := "s1"; sp_chapters := [chapter_progress {| chapterId := "ch1" |}] |};
             {| sp_sectionId := "s2";
                sp_chapters := [chapter_progress {| chapterId := "ch2" |};
                                chapter_progress {| chapterId := "ch3" |}] |} ]
           schedule);
    [intros op; reflexivity | reflexivity | reflexivity | reflexivity
    | vm_compute; lia | vm_compute; lia | reflexivity].
Defined.

(** Each schedule of the two requests, one after the other or alternating,
    ends with both users enrolled. *)
Example concurrent_purchases_sequential :
  enrollments <$>
    courses (interleave env_ok [true; true; true; true; false; false; false; false]
               (Called purchase_u1) (Called purchase_u2) world0).2 !! "c1"
  = Some ({[ "u2" ]} ∪ ({[ "u1" ]} ∪ ∅)).
Proof. reflexivity. Qed.

(** ** Reading back what a purchase wrote *)

Lemma getCourse_eq env courseId w :
  getCourse env courseId w =
    if fails env OpCourseGet
    then (res_status_json 500
            (BError "Error retrieving course" (DownstreamError OpCourseGet)), w)
    else match courses w !! courseId with
         | Some course => (res_status_json 200 (BCourse course), w)
         | None => (res_status_json 404 (BMessage "Course not found"), w)
         end.
Proof.
  unfold getCourse, try_catch, Course_get. rewrite bind_eq, call_eq.
  destruct (fails env OpCourseGet); [done|].
  by destruct (courses w !! courseId).
Qed.

(** A 200 answer of the purchase handler means no awaited call rejected. *)
Lemma createTransaction_200_no_failure env req w :
  status (createTransaction env req w).1 = 200 →
  fails env OpCourseGet = false ∧ fails env OpTransactionSave = false ∧
  fails env OpProgressSave = false ∧ fails env OpCourseAdd = false.
Proof.
  rewrite createTransaction_eq.
  destruct (fails env OpCourseGet); [done|].
  destruct (courses w !! req_courseId req) as [course|]; [|done].
  destruct (fails env OpTransactionSave); [done|].
  destruct (mirrored course) as [l|]; [|done].
  destruct (fails env OpProgressSave); [done|].
  by destruct (fails env OpCourseAdd).
Qed.

(** X1: after a purchase answered 200, [getCourse] of the same course,
    served by the same stores, answers 200 with the course as it was before
    the purchase plus the buyer in its enrollments, and reads only. *)
Theorem getCourse_after_purchase env req w res w' course :
  courses w !! req_courseId req = Some course →
  createTransaction env req w = (res, w') →
  status res = 200 →
  getCourse env (req_courseId req) w' =
    (res_status_json 200
       (BCourse {| attrs := attrs course; sections := sections course;
                   enrollments := {[req_userId req]} ∪ enrollments course |}), w').
Proof.
  intros Hc Heq Hs.
  pose proof (createTransaction_200_no_failure env req w) as Hok.
  rewrite Heq in Hok. destruct (Hok Hs) as (Hget & _).
  destruct (createTransaction_200 _ _ _ _ _ Heq Hs) as (c & l & Hc' & _ & -> & ->).
  rewrite Hc in Hc'. injection Hc' as <-.
  rewrite getCourse_eq, Hget. cbn. by rewrite lookup_insert_eq, Hc.
Qed.

Lemma getCourse_after_purchase_witness :
  getCourse env_ok "c1" world1 =
    (res_status_json 200
       (BCourse {| attrs := attrs course_c1; sections := sections course_c1;
                   enrollments := {[ "u1" ]} ∪ ∅ |}), world1).
Proof.
  apply (getCourse_after_purchase env_ok purchase_u1 world0
           (createTransaction env_ok purchase_u1 world0).1 world1 course_c1);
    reflexivity.
Defined.

Lemma listTransactions_eq env userId w :
  listTransactions env userId w =
    if truthy userId
    then if fails env OpTransactionQuery
         then (res_status_json 500
                 (BError "Error retrieving transactions"
                    (DownstreamError OpTransactionQuery)), w)
         else (res_json
                 (BTransactions "Transactions retrieved successfully"
                    (filter (λ t, tx_userId t = default "" userId)
                       (map_to_list (transactions w)).*2)), w)
    else if fails env OpTransactionScan
         then (res_status_json 500
                 (BError "Error retrieving transactions"
                    (DownstreamError OpTransactionScan)), w)
         else (res_json
                 (BTransactions "Transactions retrieved successfully"
                    (map_to_list (transactions w)).*2), w).
Proof.
  unfold listTransactions, try_catch. rewrite bind_eq.
  destruct (truthy userId).
  - unfold Transaction_query_userId_eq. rewrite call_eq.
    by destruct (fails env OpTransactionQuery).
  - unfold Transaction_scan. rewrite call_eq.
    by destruct (fails env OpTransactionScan).
Qed.

(** X2: after a purchase answered 200, the listing asked for the buyer's
    userId answers 200 and contains the transaction of the purchase answer,
    whether that userId is empty (a scan) or not (a query); the listing
    leaves the stores as they are. *)
Theorem listTransactions_after_purchase env req w res w' :
  createTransaction env req w = (res, w') →
  status res = 200 →
  fails env OpTransactionQuery = false →
  fails env OpTransactionScan = false →
  ∃ tx p data,
    body res = BPurchase "Purchased Course successfully" tx p ∧
    listTransactions env (Some (req_userId req)) w'
      = (res_json (BTransactions "Transactions retrieved successfully" data), w') ∧
    tx ∈ data.
Proof.
  intros Heq Hs Hq Hsc.
  destruct (createTransaction_200 _ _ _ _ _ Heq Hs) as (c & l & Hc & _ & -> & ->).
  exists (the_transaction env req w), (the_progress env req w l).
  rewrite listTransactions_eq, Hq, Hsc.
  assert (the_transaction env req w
            ∈ (map_to_list (transactions (after_enrollment env req w l))).*2) as Hin.
  { apply scan_all. exists (req_transactionId req). cbn. apply lookup_insert_eq. }
  destruct (truthy (Some (req_userId req))); eexists; (split; [done|]);
    (split; [reflexivity|]); [|done].
  apply list_elem_of_filter. split; [done|]. exact Hin.
Qed.

Lemma listTransactions_after_purchase_witness :
  ∃ tx p data,
    body (createTransaction env_ok purchase_u1 world0).1
      = BPurchase "Purchased Course successfully" tx p ∧
    listTransactions env_ok (Some "u1") world1
      = (res_json (BTransactions "Transactions retrieved successfully" data), world1) ∧
    tx ∈ data.
Proof.
  apply (listTransactions_after_purchase env_ok purchase_u1 world0
           (createTransaction env_ok purchase_u1 world0).1 world1);
    reflexivity.
Defined.

(** X3: the purchase handler answers 200, 404 or 500 and nothing else;
    404 exactly when the lookup completes and finds no course; 200 exactly
    when no awaited call rejects and the course is stored with all its
    section and chapter lists present. *)
Theorem createTransaction_status env req w :
  let res := (createTransaction env req w).1 in
  (status res = 200 ∨ status res = 404 ∨ status res = 500) ∧
  (status res = 404 ↔
     fails env OpCourseGet = false ∧ courses w !! req_courseId req = None) ∧
  (status res = 200 ↔
     fails env OpCourseGet = false ∧ fails env OpTransactionSave = false ∧
     fails env OpProgressSave = false ∧ fails env OpCourseAdd = false ∧
     ∃ course, courses w !! req_courseId req = Some course ∧ is_Some (mirrored course)).
Proof.
  cbn zeta. rewrite createTransaction_eq.
  destruct (fails env OpCourseGet).
  { cbn. split_and!; [auto|split; [done|by intros []]|split; [done|by intros []]]. }
  destruct (courses w !! req_courseId req) as [course|].
  2:{ cbn. split_and!; [auto|done|].
      split; [done|]. by intros (_ & _ & _ & _ & ? & ? & _). }
  destruct (fails env OpTransactionSave).
  { cbn. split_and!; [auto|split; [done|by intros []]|].
    split; [done|]. by intros (_ & ? & _). }
  destruct (mirrored course) as [l|] eqn:Hl.
  2:{ cbn. split_and!; [auto|split; [done|by intros []]|].
      split; [done|]. intros (_ & _ & _ & _ & c & [= <-] & Hm).
      rewrite Hl in Hm. by destruct Hm. }
  destruct (fails env OpProgressSave).
  { cbn. split_and!; [auto|split; [done|by intros []]|].
    split; [done|]. by intros (_ & _ & ? & _). }
  destruct (fails env OpCourseAdd).
  { cbn. split_and!; [auto|split; [done|by intros []]|].
    split; [done|]. by intros (_ & _ & _ & ? & _). }
  cbn. split_and!; [auto|split; [done|by intros []]|].
  split; [|done]. intros _. split_and!; try done. exists course. by rewrite Hl.
Qed.

(** ** What the gateway is asked to charge *)

(** X5: whatever amount the request carries (none, or any integer), the
    payment-intent handler touches no store; when the gateway accepts, it
    answers 200 with the secret of one new intent whose amount is at least
    1, and is the requested amount whenever that is positive; when the
    gateway rejects, it answers 500 and nothing has changed. *)
Theorem createStripePaymentIntent_positive_charge env amount w :
  let out := createStripePaymentIntent env amount w in
  (courses out.2 = courses w ∧ transactions out.2 = transactions w ∧
   progress out.2 = progress w ∧ objects out.2 = objects w) ∧
  (fails env OpPaymentIntent = false →
   ∃ i, out.1 = res_json (BClientSecret "" (client_secret i)) ∧
        intents out.2 = (intents w ++ [i])%list ∧
        1 ≤ pi_amount i ∧
        (∀ n, amount = Some n → 0 < n → pi_amount i = n)) ∧
  (fails env OpPaymentIntent = true →
   out = (res_status_json 500
            (BError "Error creating stripe payment intent"
               (DownstreamError OpPaymentIntent)), w)).
Proof.
  cbn zeta. unfold createStripePaymentIntent, try_catch.
  assert (∃ n, (if amount_rejected amount then Some 50 else amount) = Some n ∧
               1 ≤ n ∧ (∀ m, amount = Some m → 0 < m → n = m))
    as (n & -> & Hn & Hsame).
  { destruct amount as [m|]; cbn.
    - destruct (m =? 0) eqn:H0; cbn.
      + exists 50. split_and!; [done|lia|]. intros ? [= <-] ?.
        apply Z.eqb_eq in H0. lia.
      + destruct (m <=? 0) eqn:Hle.
        * exists 50. split_and!; [done|lia|]. intros ? [= <-] ?.
          apply Z.leb_le in Hle. lia.
        * exists m. apply Z.leb_gt in Hle. split_and!; [done|lia|].
          by intros ? [= <-] ?.
    - exists 50. split_and!; [done|lia|done]. }
  rewrite bind_eq, stripe_paymentIntents_create_eq.
  destruct (fails env OpPaymentIntent); cbn.
  - split_and!; done.
  - split_and!; try done. intros _.
    exists {| pi_amount := n; currency := "usd";
              automatic_payment_methods_enabled := true;
              allow_redirects := "never";
              client_secret := secret_of env (length (intents w)) |}.
    split_and!; [reflexivity|done|done|]. exact Hsame.
Qed.

Example createStripePaymentIntent_one :
  writes (createStripePaymentIntent env_ok (Some 1) world0).2 = [WIntent 1].
Proof. reflexivity. Qed.

(** ** A failed catalog update after an upload *)

(** X6: when the image upload succeeds and the catalog update then
    rejects, [updateCourse] answers 500, the catalog is as before, and the
    uploaded object stays in the object store under its key. *)
Theorem updateCourse_upload_survives_failed_update env req w file :
  req_file req = Some file →
  fails env OpPutObject = false →
  fails env OpCourseUpdate = true →
  let out := updateCourse env req w in
  out.1 = res_status_json 500
            (BError "Error updating course" (DownstreamError OpCourseUpdate)) ∧
  courses out.2 = courses w ∧
  objects out.2 !! object_key (params_courseId req) file
    = Some (upload_of env (params_courseId req) file) ∧
  writes out.2 = (writes w ++ [WObject (upload_of env (params_courseId req) file)])%list.
Proof.
  intros Hfile Hput Hupd. cbn zeta.
  unfold updateCourse, try_catch.
  rewrite Hfile, !bind_eq, s3Client_send_eq, Hput, ret_eq, bind_eq.
  rewrite Course_update_eq, Hupd. cbn.
  split_and!; try done. apply lookup_insert_eq.
Qed.

Lemma updateCourse_upload_survives_failed_update_witness :
  let out := updateCourse (env_failing [OpCourseUpdate]) update_with_image world0 in
  out.1 = res_status_json 500
            (BError "Error updating course" (DownstreamError OpCourseUpdate)) ∧
  courses out.2 = courses world0 ∧
  objects out.2 !! "courses/c1/cover.png"
    = Some (upload_of (env_failing [OpCourseUpdate]) "c1" cover_png) ∧
  writes out.2 = [WObject (upload_of (env_failing [OpCourseUpdate]) "c1" cover_png)].
Proof.
  apply (updateCourse_upload_survives_failed_update (env_failing [OpCourseUpdate])
           update_with_image world0 cover_png); reflexivity.
Defined.

(** ** Object keys *)

Lemma append_cancel (s a b : string) : s +:+ a = s +:+ b → a = b.
Proof. induction s as [|c s IH]; cbn; [done|]. intros [= H]. by apply IH. Qed.

(** X7: for one course, the key under which [updateCourse] stores an
    image is the key for which [getUploadVideoUrl] signs a chapter's video
    upload exactly when the image's file name is
    sections/<sectionId>/chapters/<chapterId>/video.mp4. *)
Theorem image_key_meets_video_key env courseId sectionId chapterId file :
  Key (upload_of env courseId file) = video_key courseId sectionId chapterId
  ↔ originalname file = video_name sectionId chapterId.
Proof.
  unfold upload_of, object_key, video_key, video_name. cbn. split.
  - intros [= H]. cbn in H. apply (append_cancel courseId) in H.
    cbn in H. by injection H.
  - by intros ->.
Qed.

Example image_overwrites_video :
  let file := {| originalname := "sections/s1/chapters/ch1/video.mp4";
                 buffer := "PNG-bytes"; mimetype := "image/png" |} in
  objects (updateCourse env_ok
             {| params_courseId := "c1"; req_body := retitle; req_file := Some file |}
             world0).2 !! video_key "c1" "s1" "ch1"
  = Some (upload_of env_ok "c1" file).
Proof. reflexivity. Qed.

Lemma slash_free_split (a b x y : string) :
  slash_free a = true → slash_free b = true →
  a +:+ String (Ascii.ascii_of_nat 47) x = b +:+ String (Ascii.ascii_of_nat 47) y →
  a = b ∧ x = y.
Proof.
  revert b. induction a as [|c a IH]; intros [|d b] Ha Hb; cbn in *.
  - by intros [= ->].
  - intros [= <- _]. by rewrite Ascii.eqb_refl in Hb.
  - intros [= -> _]. by rewrite Ascii.eqb_refl in Ha.
  - intros [= -> H].
    apply andb_true_iff in Ha as [_ Ha]. apply andb_true_iff in Hb as [_ Hb].
    destruct (IH b Ha Hb H) as [-> ->]. done.
Qed.

(** X8: for identifiers that contain no slash, the video key determines
    the course, the section and the chapter: two upload URLs are signed for
    the same key only for the same chapter. *)
Theorem video_key_inj c1 s1 h1 c2 s2 h2 :
  slash_free c1 = true → slash_free s1 = true → slash_free h1 = true →
  slash_free c2 = true → slash_free s2 = true → slash_free h2 = true →
  video_key c1 s1 h1 = video_key c2 s2 h2 →
  c1 = c2 ∧ s1 = s2 ∧ h1 = h2.
Proof.
  intros Hc1 Hs1 Hh1 Hc2 Hs2 Hh2. unfold video_key. cbn. intros [= H].
  apply slash_free_split in H as [-> H]; [|done..].
  injection H as H.
  apply slash_free_split in H as [-> H]; [|done..].
  injection H as H.
  apply slash_free_split in H as [-> _]; done.
Qed.

Lemma video_key_inj_witness :
  "c1" = "c1" ∧ "s1" = "s1" ∧ "ch1" = "ch1".
Proof.
  apply (video_key_inj "c1" "s1" "ch1" "c1" "s1" "ch1"); reflexivity.
Defined.

(** With a slash inside an identifier two chapters share a key. *)
Example video_key_shared :
  video_key "a" "b/chapters/c/video.mp4/chapters/d" "e"
  = video_key "a" "b" "c/video.mp4/chapters/d/chapters/e".
Proof. reflexivity. Qed.

(** ** Creating, listing and deleting courses *)

Lemma site_bind_eq {A B} (m : Task A) (k : A → Task B) (s : Site) :
  (m ≫= k) s =
    match m s with
    | (Fulfilled a, s') => k a s'
    | (Failed e, s') => (Failed e, s')
    end.
Proof. reflexivity. Qed.

Lemma site_ret_eq {A} (a : A) (s : Site) : mret (M := Task) a s = (Fulfilled a, s).
Proof. reflexivity. Qed.

Lemma site_call_eq {A} senv op (action : Task A) (s : Site) :
  site_call senv op action s =
    if rejects senv op then (Failed (Rejected op), s) else action s.
Proof. unfold site_call. by destruct (rejects senv op). Qed.

(** [createCourse] with a usable identifier in the body, case by case. *)
Lemma createCourse_with_id senv body s id :
  body_id body = Some id → id ≠ "" →
  createCourse senv body s =
    if rejects senv OpCourseCreate then (creation_failed OpCourseCreate, s)
    else match courses (stores s) !! id with
    | Some _ => (creation_failed OpCourseCreate, s)
    | None =>
      let s1 := set_stores (set_courses <[id := course_of body]>) s in
      if rejects senv OpProductCreate then (creation_failed OpProductCreate, s1)
      else
        let p := {| product_id := product_id_of senv (length (products s));
                    name := body_title body;
                    description := "Course: " +:+ body_title body |} in
        let s2 := {| stores := stores s1; products := products s ++ [p];
                     prices := prices s |} in
        if rejects senv OpPriceCreate then (creation_failed OpPriceCreate, s2)
        else
          let price := {| price_id := price_id_of senv (length (prices s));
                          product := product_id p;
                          unit_amount := body_price body * 100;
                          price_currency := "usd" |} in
          ({| site_status := 201; site_body := SCreated id (course_of body) price |},
           {| stores := stores s1; products := products s ++ [p];
              prices := prices s ++ [price] |})
    end.
Proof.
  intros Hid Hne. unfold createCourse, site_try_catch.
  rewrite Hid, (truthy_Some_ne id Hne), site_bind_eq, site_ret_eq.
  change (default "" (Some id)) with id.
  rewrite site_bind_eq. unfold Course_create. rewrite site_call_eq.
  destruct (rejects senv OpCourseCreate); [done|].
  destruct (courses (stores s) !! id); [done|].
  rewrite site_bind_eq. unfold stripe_products_create. rewrite site_call_eq.
  destruct (rejects senv OpProductCreate); [done|].
  rewrite site_bind_eq. unfold stripe_prices_create. rewrite site_call_eq.
  by destruct (rejects senv OpPriceCreate).
Qed.

Lemma deleteCourse_eq senv id s :
  deleteCourse senv id s =
    if rejects senv OpCourseDelete
    then ({| site_status := 500;
             site_body := SError "Error deleting course" (Rejected OpCourseDelete) |}, s)
    else ({| site_status := 204; site_body := SEmpty |},
          set_stores (set_courses (delete id)) s).
Proof.
  unfold deleteCourse, site_try_catch, Course_delete.
  rewrite site_bind_eq, site_call_eq.
  by destruct (rejects senv OpCourseDelete).
Qed.

Lemma listCourses_eq senv s :
  listCourses senv s =
    if rejects senv OpCourseScan
    then ({| site_status := 500;
             site_body := SError "Error listing courses" (Rejected OpCourseScan) |}, s)
    else ({| site_status := 200;
             site_body := SCourses (map_to_list (courses (stores s))) |}, s).
Proof.
  unfold listCourses, site_try_catch, Course_scan.
  rewrite site_bind_eq, site_call_eq.
  by destruct (rejects senv OpCourseScan).
Qed.



(** X10: a course created without an identifier, or with an empty one,
    is stored under the timestamp read at its creation: when that key is
    free and nothing rejects, the answer is 201 with the timestamp as
    identifier, and the clock has been read exactly once. *)
Theorem createCourse_without_id senv body s :
  (∀ op, rejects senv op = false) →
  body_id body = None ∨ body_id body = Some "" →
  let now := clock (base senv) (date_reads (stores s)) in
  courses (stores s) !! now = None →
  ∃ price s',
    createCourse senv body s
      = ({| site_status := 201; site_body := SCreated now (course_of body) price |}, s') ∧
    courses (stores s') = <[now := course_of body]> (courses (stores s)) ∧
    date_reads (stores s') = S (date_reads (stores s)).
Proof.
  intros Hok Hid now Hfresh.
  assert (truthy (body_id body) = false) as Ht by (by destruct Hid as [-> | ->]).
  unfold createCourse, site_try_catch. rewrite Ht, site_bind_eq.
  cbn [site_Date_now]. fold now.
  rewrite site_bind_eq. unfold Course_create. rewrite site_call_eq, Hok.
  change (courses (stores (set_stores tick s))) with (courses (stores s)).
  rewrite Hfresh, site_bind_eq.
  unfold stripe_products_create. rewrite site_call_eq, Hok, site_bind_eq.
  unfold stripe_prices_create. rewrite site_call_eq, Hok, site_ret_eq.
  eexists _, _. split; [reflexivity|]. done.
Qed.

Lemma createCourse_without_id_witness :
  ∃ price s',
    createCourse senv_ok body_anonymous site0
      = ({| site_status := 201;
            site_body := SCreated "2025-07-01T10:00:00.000Z"
                           (course_of body_anonymous) price |}, s') ∧
    courses (stores s')
      = <["2025-07-01T10:00:00.000Z" := course_of body_anonymous]> (courses world0) ∧
    date_reads (stores s') = 1%nat.
Proof.
  apply (createCourse_without_id senv_ok body_anonymous site0);
    [intros op; reflexivity | left; reflexivity | reflexivity].
Defined.

(** X11: nothing is undone when the gateway fails after the course was
    stored: if the product or the price registration rejects, the answer is
    500, and the new course is in the catalog all the same; no price is
    registered, and the product is registered when only the price
    registration rejected. *)
Theorem createCourse_keeps_course_when_gateway_fails senv body s id :
  rejects senv OpCourseCreate = false →
  body_id body = Some id → id ≠ "" →
  courses (stores s) !! id = None →
  rejects senv OpProductCreate = true ∨ rejects senv OpPriceCreate = true →
  ∃ op s',
    createCourse senv body s = (creation_failed op, s') ∧
    courses (stores s') !! id = Some (course_of body) ∧
    prices s' = prices s ∧
    (rejects senv OpProductCreate = true → products s' = products s) ∧
    (rejects senv OpProductCreate = false →
     ∃ p, products s' = (products s ++ [p])%list ∧ name p = body_title body).
Proof.
  intros Hcreate Hid Hne Hfresh Hfail.
  rewrite (createCourse_with_id senv body s id Hid Hne), Hcreate, Hfresh. cbn zeta.
  destruct (rejects senv OpProductCreate) eqn:Hp.
  - eexists _, _. split; [reflexivity|]. cbn.
    rewrite lookup_insert_eq. split_and!; done.
  - destruct Hfail as [?|Hprice]; [done|]. rewrite Hprice.
    eexists _, _. split; [reflexivity|]. cbn.
    rewrite lookup_insert_eq. split_and!; try done. intros _. by eexists.
Qed.

Lemma createCourse_keeps_course_when_gateway_fails_witness :
  ∃ op s',
    createCourse (senv_rejecting [OpPriceCreate]) body_c2 site0
      = (creation_failed op, s') ∧
    courses (stores s') !! "c2" = Some (course_of body_c2) ∧
    prices s' = [] ∧
    (rejects (senv_rejecting [OpPriceCreate]) OpProductCreate = true → products s' = []) ∧
    (rejects (senv_rejecting [OpPriceCreate]) OpProductCreate = false →
     ∃ p, products s' = [p] ∧ name p = "Iris").
Proof.
  apply (createCourse_keeps_course_when_gateway_fails
           (senv_rejecting [OpPriceCreate]) body_c2 site0 "c2");
    [reflexivity | reflexivity | discriminate | reflexivity | right; reflexivity].
Defined.

(** X12: a deletion that does not reject answers 204 and removes the
    course from the catalog and nothing else: the transactions and the
    progress records of its buyers stay.  Afterwards [getCourse] of the
    identifier answers 404, and a purchase of it answers 404 and writes
    nothing. *)
Theorem deleteCourse_then_gone senv id s :
  rejects senv OpCourseDelete = false →
  fails (base senv) OpCourseGet = false →
  ∃ s',
    deleteCourse senv id s = ({| site_status := 204; site_body := SEmpty |}, s') ∧
    courses (stores s') = delete id (courses (stores s)) ∧
    transactions (stores s') = transactions (stores s) ∧
    progress (stores s') = progress (stores s) ∧
    getCourse (base senv) id (stores s')
      = (res_status_json 404 (BMessage "Course not found"), stores s') ∧
    (∀ req, req_courseId req = id →
       createTransaction (base senv) req (stores s')
         = (res_status_json 404 (BMessage "Course not found"), stores s')).
Proof.
  intros Hdel Hget. rewrite deleteCourse_eq, Hdel.
  eexists. split; [reflexivity|]. cbn. split_and!; try done.
  - rewrite getCourse_eq, Hget. cbn. by rewrite lookup_delete_eq.
  - intros req <-. rewrite createTransaction_eq, Hget. cbn.
    by rewrite lookup_delete_eq.
Qed.

Lemma deleteCourse_then_gone_witness :
  ∃ s',
    deleteCourse senv_ok "c1" {| stores := world1; products := []; prices := [] |}
      = ({| site_status := 204; site_body := SEmpty |}, s') ∧
    courses (stores s') = delete "c1" (courses world1) ∧
    transactions (stores s') = transactions world1 ∧
    progress (stores s') = progress world1 ∧
    getCourse env_ok "c1" (stores s')
      = (res_status_json 404 (BMessage "Course not found"), stores s') ∧
    (∀ req, req_courseId req = "c1" →
       createTransaction env_ok req (stores s')
         = (res_status_json 404 (BMessage "Course not found"), stores s')).
Proof.
  apply (deleteCourse_then_gone senv_ok "c1"
           {| stores := world1; products := []; prices := [] |});
    reflexivity.
Defined.

(** The buyer's transaction is still listed once the course is gone. *)
Example listTransactions_after_deleteCourse :
  (listTransactions env_ok (Some "u1")
     (stores (deleteCourse senv_ok "c1"
                {| stores := world1; products := []; prices := [] |}).2)).1
  = res_json (BTransactions "Transactions retrieved successfully"
                [the_transaction env_ok purchase_u1 world0]).
Proof. reflexivity. Qed.

(** X13: after a course was created (answer 201), the course listing
    answers 200 with, up to order, the new course followed by the courses
    listed before, and changes nothing. *)
Theorem listCourses_after_createCourse senv body s res s' id course price :
  createCourse senv body s = (res, s') →
  site_body res = SCreated id course price →
  rejects senv OpCourseScan = false →
  ∃ before after,
    listCourses senv s = ({| site_status := 200; site_body := SCourses before |}, s) ∧
    listCourses senv s' = ({| site_status := 200; site_body := SCourses after |}, s') ∧
    after ≡ₚ (id, course) :: before.
Proof.
  intros Hcreate Hbody Hscan. rewrite !listCourses_eq, Hscan.
  eexists _, _. split; [reflexivity|]. split; [reflexivity|].
  revert Hcreate. unfold createCourse, site_try_catch. rewrite site_bind_eq.
  assert (∃ k s0, (if truthy (body_id body)
                   then mret (default "" (body_id body))
                   else site_Date_now senv) s = (Fulfilled k, s0) ∧
                  courses (stores s0) = courses (stores s)) as (k & s0 & -> & Hs0).
  { destruct (truthy (body_id body)); eexists _, _; split; reflexivity. }
  rewrite site_bind_eq. unfold Course_create. rewrite site_call_eq.
  destruct (rejects senv OpCourseCreate).
  { intros [= <- <-]. by cbn in Hbody. }
  destruct (courses (stores s0) !! k) eqn:Hk.
  { intros [= <- <-]. by cbn in Hbody. }
  rewrite site_bind_eq. unfold stripe_products_create. rewrite site_call_eq.
  destruct (rejects senv OpProductCreate).
  { intros [= <- <-]. by cbn in Hbody. }
  rewrite site_bind_eq. unfold stripe_prices_create. rewrite site_call_eq.
  destruct (rejects senv OpPriceCreate).
  { intros [= <- <-]. by cbn in Hbody. }
  rewrite site_ret_eq. intros [= <- <-]. cbn in Hbody. injection Hbody as <- <- <-.
  cbn. rewrite Hs0 in *. by apply map_to_list_insert.
Qed.

Lemma listCourses_after_createCourse_witness :
  ∃ before after,
    listCourses senv_ok site0
      = ({| site_status := 200; site_body := SCourses before |}, site0) ∧
    listCourses senv_ok (createCourse senv_ok body_c2 site0).2
      = ({| site_status := 200; site_body := SCourses after |},
         (createCourse senv_ok body_c2 site0).2) ∧
    after ≡ₚ ("c2", course_of body_c2) :: before.
Proof.
  apply (listCourses_after_createCourse senv_ok body_c2 site0
           (createCourse senv_ok body_c2 site0).1 (createCourse senv_ok body_c2 site0).2
           "c2" (course_of body_c2)
           {| price_id := "price_1"; product := "prod_1"; unit_amount := 3000;
              price_currency := "usd" |});
    reflexivity.
Defined.

(** X14: deleting a course right after its creation gives the catalog
    back as it was before, while the product and the price registered for
    it at the gateway stay registered. *)
Theorem deleteCourse_after_createCourse senv body s res s' id course price :
  createCourse senv body s = (res, s') →
  site_body res = SCreated id course price →
  rejects senv OpCourseDelete = false →
  let out := deleteCourse senv id s' in
  site_status out.1 = 204 ∧
  courses (stores out.2) = courses (stores s) ∧
  (∃ p, products out.2 = (products s ++ [p])%list ∧ product price = product_id p) ∧
  prices out.2 = (prices s ++ [price])%list.
Proof.
  intros Hcreate Hbody Hdel. cbn zeta. rewrite deleteCourse_eq, Hdel.
  revert Hcreate. unfold createCourse, site_try_catch. rewrite site_bind_eq.
  assert (∃ k s0, (if truthy (body_id body)
                   then mret (default "" (body_id body))
                   else site_Date_now senv) s = (Fulfilled k, s0) ∧
                  courses (stores s0) = courses (stores s) ∧
                  products s0 = products s ∧ prices s0 = prices s)
    as (k & s0 & -> & Hs0 & Hp0 & Hr0).
  { destruct (truthy (body_id body)); eexists _, _; split_and!; reflexivity. }
  rewrite site_bind_eq. unfold Course_create. rewrite site_call_eq.
  destruct (rejects senv OpCourseCreate).
  { intros [= <- <-]. by cbn in Hbody. }
  destruct (courses (stores s0) !! k) eqn:Hk.
  { intros [= <- <-]. by cbn in Hbody. }
  rewrite site_bind_eq. unfold stripe_products_create. rewrite site_call_eq.
  destruct (rejects senv OpProductCreate).
  { intros [= <- <-]. by cbn in Hbody. }
  rewrite site_bind_eq. unfold stripe_prices_create. rewrite site_call_eq.
  destruct (rejects senv OpPriceCreate).
  { intros [= <- <-]. by cbn in Hbody. }
  rewrite site_ret_eq. intros [= <- <-]. cbn in Hbody. injection Hbody as <- <- <-.
  cbn. rewrite Hp0, Hr0, <- Hs0. split_and!; [done| |by eexists|done].
  by apply delete_insert_id.
Qed.

Lemma deleteCourse_after_createCourse_witness :
  let out := deleteCourse senv_ok "c2" (createCourse senv_ok body_c2 site0).2 in
  site_status out.1 = 204 ∧
  courses (stores out.2) = courses world0 ∧
  (∃ p, products out.2 = [p] ∧ "prod_1" = product_id p) ∧
  prices out.2
    = [ {| price_id := "price_1"; product := "prod_1"; unit_amount := 3000;
           price_currency := "usd" |} ].
Proof.
  apply (deleteCourse_after_createCourse senv_ok body_c2 site0
           (createCourse senv_ok body_c2 site0).1 (createCourse senv_ok body_c2 site0).2
           "c2" (course_of body_c2)
           {| price_id := "price_1"; product := "prod_1"; unit_amount := 3000;
              price_currency := "usd" |});
    reflexivity.
Defined.

(** What a 201 answer of [createCourse] says about the catalog. *)
Lemma createCourse_created senv body s res s' id course price :
  createCourse senv body s = (res, s') →
  site_body res = SCreated id course price →
  course = course_of body ∧
  courses (stores s') = <[id := course_of body]> (courses (stores s)) ∧
  transactions (stores s') = transactions (stores s) ∧
  progress (stores s') = progress (stores s).
Proof.
  intros Hcreate Hbody.
  revert Hcreate. unfold createCourse, site_try_catch. rewrite site_bind_eq.
  assert (∃ k s0, (if truthy (body_id body)
                   then mret (default "" (body_id body))
                   else site_Date_now senv) s = (Fulfilled k, s0) ∧
                  courses (stores s0) = courses (stores s) ∧
                  transactions (stores s0) = transactions (stores s) ∧
                  progress (stores s0) = progress (stores s))
    as (k & s0 & -> & Hs0 & Ht0 & Hp0).
  { destruct (truthy (body_id body)); eexists _, _; split_and!; reflexivity. }
  rewrite site_bind_eq. unfold Course_create. rewrite site_call_eq.
  destruct (rejects senv OpCourseCreate).
  { intros [= <- <-]. by cbn in Hbody. }
  destruct (courses (stores s0) !! k) eqn:Hk.
  { intros [= <- <-]. by cbn in Hbody. }
  rewrite site_bind_eq. unfold stripe_products_create. rewrite site_call_eq.
  destruct (rejects senv OpProductCreate).
  { intros [= <- <-]. by cbn in Hbody. }
  rewrite site_bind_eq. unfold stripe_prices_create. rewrite site_call_eq.
  destruct (rejects senv OpPriceCreate).
  { intros [= <- <-]. by cbn in Hbody. }
  rewrite site_ret_eq. intros [= <- <-]. cbn in Hbody. injection Hbody as <- <- <-.
  cbn. by rewrite Hs0, Ht0, Hp0.
Qed.

(** X4: the first purchase of a course that [createCourse] has just
    stored, when no awaited call of the purchase rejects.  If the body
    carried its sections and every section its chapters, the purchase
    answers 200 and the course then has the buyer as its one enrollment.
    If the sections or some section's chapters were missing, the purchase
    answers 500 with the TypeError of the missing list, after the
    Transaction was stored: there is a transaction, no progress record and
    no enrollment. *)
Theorem purchase_of_created_course senv body s res s' id course price req :
  createCourse senv body s = (res, s') →
  site_body res = SCreated id course price →
  req_courseId req = id →
  (∀ op, fails (base senv) op = false) →
  let out := createTransaction (base senv) req (stores s') in
  (is_Some (mirrored (course_of body)) →
   status out.1 = 200 ∧
   enrollments <$> courses out.2 !! id = Some {[req_userId req]}) ∧
  (mirrored (course_of body) = None →
   out.1 = purchase_failed undefined_map ∧
   transactions out.2 !! req_transactionId req
     = Some (the_transaction (base senv) req (stores s')) ∧
   progress out.2 = progress (stores s') ∧
   courses out.2 = courses (stores s')).
Proof.
  intros Hcreate Hbody <- Hok. cbn zeta.
  destruct (createCourse_created _ _ _ _ _ _ _ _ Hcreate Hbody) as (-> & Hc & _ & _).
  assert (courses (stores s') !! req_courseId req = Some (course_of body)) as Hlook
    by (by rewrite Hc, lookup_insert_eq).
  rewrite createTransaction_eq, !Hok, Hlook. split.
  - intros [l ->]. cbn. split; [done|].
    rewrite lookup_insert_eq, Hlook. cbn. by rewrite (right_id_L ∅ (∪)).
  - intros ->. cbn. split_and!; try done. by rewrite lookup_insert_eq.
Qed.

Lemma purchase_of_created_course_witness :
  let s' := (createCourse senv_ok body_c2 site0).2 in
  let out := createTransaction env_ok purchase_c2 (stores s') in
  (is_Some (mirrored (course_of body_c2)) →
   status out.1 = 200 ∧
   enrollments <$> courses out.2 !! "c2" = Some {[ "u1" ]}) ∧
  (mirrored (course_of body_c2) = None →
   out.1 = purchase_failed undefined_map ∧
   transactions out.2 !! "tx9" = Some (the_transaction env_ok purchase_c2 (stores s')) ∧
   progress out.2 = progress (stores s') ∧
   courses out.2 = courses (stores s')).
Proof.
  apply (purchase_of_created_course senv_ok body_c2 site0
           (createCourse senv_ok body_c2 site0).1 (createCourse senv_ok body_c2 site0).2
           "c2" (course_of body_c2)
           {| price_id := "price_1"; product := "prod_1"; unit_amount := 3000;
              price_currency := "usd" |} purchase_c2);
    [reflexivity | reflexivity | reflexivity | intros op; reflexivity].
Defined.

(** A course created without sections takes the buyer's transaction and
    answers 500. *)
Example purchase_without_sections :
  let out := createTransaction env_ok purchase_c2
               (stores (createCourse senv_ok body_c2 site0).2) in
  status out.1 = 500 ∧ size (transactions out.2) = 1%nat ∧
  size (progress out.2) = 0%nat.
Proof. by vm_compute. Qed.
